(** * Strategy combinators of [hypothesis.searchstrategy.strategies]

    A shallow embedding of the combinator layer of Hypothesis
    ([SearchStrategy], [OneOfStrategy], [MappedSearchStrategy],
    [FilteredStrategy] and [one_of_strategies]) together with the draw
    protocol that threads one entropy source through a tree of
    strategies.

    Python objects live in a store indexed by their identity; a method
    that constructs a strategy allocates in that store, a method that
    draws only reads it.  The [while True] loop of the filter is run with
    fuel, and every statement about a result says how much fuel is
    enough. *)

From Stdlib Require Import ZArith QArith.
From stdpp Require Import base gmap strings list.
Close Scope Q_scope.
Local Open Scope Z_scope.

(** ** Python values, exceptions and results *)

(** The identity of an object ([id(x)] in Python). *)
Definition loc := positive.

(** The Python values the combinators handle: a few immediate values and
    references to objects of the store. *)
Inductive value :=
| VNone
| VBool (b : bool)
| VInt (z : Z)
| VStr (s : string)
| VRef (l : loc).

Global Instance value_eq_dec : EqDecision value.
Proof. solve_decision. Defined.

(** Truth value of a Python value, as an [if] tests it.  Objects are true:
    none of the classes here defines [__bool__] or [__len__]. *)
Definition truthy (v : value) : bool :=
  match v with
  | VNone => false
  | VBool b => b
  | VInt z => negb (z =? 0)
  | VStr s => negb (String.eqb s "")
  | VRef _ => true
  end.

(** A raised exception: the name of its class and its message. *)
Record exn := Raise { exn_class : string; exn_message : string }.

Definition ValueError (msg : string) : exn := Raise "ValueError" msg.
Definition NotImplementedError (msg : string) : exn := Raise "NotImplementedError" msg.
Definition AttributeError (msg : string) : exn := Raise "AttributeError" msg.
Definition IndexError (msg : string) : exn := Raise "IndexError" msg.
Definition UnsatisfiedAssumption : exn := Raise "UnsatisfiedAssumption" "".

(** What a call produces: a returned value or a raised exception. *)
Inductive result (A : Type) :=
| Ok (a : A)
| Err (e : exn).
Arguments Ok {A} a.
Arguments Err {A} e.

(** A Python callable of one argument without side effects: the [pack] of
    [map], the [condition] of [filter], the [expand] of [flatmap]. *)
Definition callable := value → result value.

(** ** The external collaborators

    [hypothesis.internal.conjecture] (the entropy source [data] and
    [integer_range]), [hypothesis.internal.reflection] and the [repr]
    builtin are not part of this module; they are the parameters of the
    development. *)
Class External (Data : Type) := {
  (** [data.index], the consumption counter. *)
  index : Data → Z;
  (** [integer_range(data, lower, upper)]. *)
  integer_range : Data → Z → Z → result Z * Data;
  (** [get_pretty_function_description(f)]. *)
  get_pretty_function_description : callable → string;
  (** [repr(v)] for a value that is not one of the strategies below. *)
  builtin_repr : value → string;
}.

(** Modelled from the spec: [assume] of [hypothesis.control] is not in
    this module.  "Given a boolean condition, either continues normally or
    immediately abandons the current attempt with a distinguishable
    unsatisfied-assumption signal". *)
Definition assume (condition : bool) : result value :=
  if condition then Ok (VBool true) else Err UnsatisfiedAssumption.

(** [xs[i]] on a Python list, negative indices counting from the end. *)
Definition py_getitem {A} (xs : list A) (i : Z) : result A :=
  let n := Z.of_nat (length xs) in
  let j := if i <? 0 then i + n else i in
  if (0 <=? j) && (j <? n) then
    match xs !! Z.to_nat j with
    | Some x => Ok x
    | None => Err (IndexError "list index out of range")
    end
  else Err (IndexError "list index out of range").

(** ** Objects and the store *)

(** The objects of the store.  The first three are the classes of this
    module with their instance attributes; [_cached_repr] is [None] while
    the attribute is not set, and [pack] is [None] when the constructor
    was given no [pack] and so set no attribute.

    [FlatMapStrategy] is modelled from the spec:
    [hypothesis.searchstrategy.flatmapped] is not in this module, and
    [flatmap] builds "a strategy that draws a value [x] from [self], then
    draws from [expand(x)]".

    [ExternalStrategy] is an instance of [SearchStrategy] itself or of a
    subclass defined in another module: the name of its class, and its
    [do_draw] when the class overrides it.  [OtherObject] is any object
    that is not a [SearchStrategy]. *)
Inductive object (Data : Type) :=
| OneOfStrategy (element_strategies : list value)
| MappedSearchStrategy (mapped_strategy : value) (pack : option callable)
    (_cached_repr : option string)
| FilteredStrategy (condition : callable) (filtered_strategy : value)
    (_cached_repr : option string)
| FlatMapStrategy (expand : callable) (flatmapped_strategy : value)
| ExternalStrategy (type_name : string)
    (draw_override : option (Data → result value * Data))
| OtherObject (type_name : string).
Arguments OneOfStrategy {Data} element_strategies.
Arguments MappedSearchStrategy {Data} mapped_strategy pack _cached_repr.
Arguments FilteredStrategy {Data} condition filtered_strategy _cached_repr.
Arguments FlatMapStrategy {Data} expand flatmapped_strategy.
Arguments ExternalStrategy {Data} type_name draw_override.
Arguments OtherObject {Data} type_name.

(** The store: the objects by identity. *)
Abbreviation heap Data := (gmap loc (object Data)).

(** The outcome of a draw: [None] when the fuel ran out, else what the
    call returned or raised and the entropy source it left. *)
Abbreviation drawn Data := (option (result value * Data)).

Section Store.
Context {Data : Type}.

(** [type(self).__name__]. *)
Definition type_name_of (o : object Data) : string :=
  match o with
  | OneOfStrategy _ => "OneOfStrategy"
  | MappedSearchStrategy _ _ _ => "MappedSearchStrategy"
  | FilteredStrategy _ _ _ => "FilteredStrategy"
  | FlatMapStrategy _ _ => "FlatMapStrategy"
  | ExternalStrategy name _ => name
  | OtherObject name => name
  end.

(** [isinstance(v, SearchStrategy)]. *)
Definition isinstance_SearchStrategy (h : heap Data) (v : value) : bool :=
  match v with
  | VRef l =>
      match h !! l with
      | Some (OtherObject _) | None => false
      | Some _ => true
      end
  | _ => false
  end.

(** Allocation of a new object, under an identity the store does not
    use. *)
Definition alloc (h : heap Data) (o : object Data) : loc * heap Data :=
  let l := fresh (dom h) in (l, <[l := o]> h).

(** [hasattr(self, '_cached_repr')] and the value of the attribute. *)
Definition cached_repr (o : object Data) : option string :=
  match o with
  | MappedSearchStrategy _ _ c | FilteredStrategy _ _ c => c
  | _ => None
  end.

(** [self._cached_repr = s]. *)
Definition set_cached_repr (s : string) (o : object Data) : object Data :=
  match o with
  | MappedSearchStrategy m p _ => MappedSearchStrategy m p (Some s)
  | FilteredStrategy c f _ => FilteredStrategy c f (Some s)
  | _ => o
  end.

(** An object without its cached description: the attributes its
    constructor set. *)
Definition constructed (o : object Data) : object Data :=
  match o with
  | MappedSearchStrategy m p _ => MappedSearchStrategy m p None
  | FilteredStrategy c f _ => FilteredStrategy c f None
  | _ => o
  end.

(** Is [v] a [OneOfStrategy] of the store? *)
Definition is_OneOfStrategy (h : heap Data) (v : value) : bool :=
  match v with
  | VRef l =>
      match h !! l with
      | Some (OneOfStrategy _) => true
      | _ => false
      end
  | _ => false
  end.

(** Every object of [h] is in [h'] with all its attributes as they were. *)
Definition preserved (h h' : heap Data) : Prop :=
  ∀ l o, h !! l = Some o → h' !! l = Some o.

(** [h] and [h'] hold the same objects, with the attributes their
    constructors set as they were: they differ at most in cached
    descriptions. *)
Definition same_constructed (h h' : heap Data) : Prop :=
  ∀ l, constructed <$> h' !! l = constructed <$> h !! l.

(** [v] is a strategy that [h'] holds and [h] did not. *)
Definition new_strategy (h h' : heap Data) (v : value) : Prop :=
  ∃ l, v = VRef l ∧ h !! l = None ∧ isinstance_SearchStrategy h' v = true.

(** [map(repr, xs)], consumed from left to right: the descriptions of the
    elements, each computed in the store the previous one left. *)
Fixpoint map_repr (repr : heap Data → value → option (result string * heap Data))
    (h : heap Data) (xs : list value)
  : option (result (list string) * heap Data) :=
  match xs with
  | [] => Some (Ok [], h)
  | x :: xs =>
      match repr h x with
      | None => None
      | Some (Err e, h) => Some (Err e, h)
      | Some (Ok r, h) =>
          match map_repr repr h xs with
          | None => None
          | Some (Err e, h) => Some (Err e, h)
          | Some (Ok rs, h) => Some (Ok (r :: rs), h)
          end
      end
  end.

End Store.

(** The outcome of a [repr]: [None] when the fuel ran out, else the
    description or the exception, and the store with the descriptions
    cached on the way. *)
Abbreviation described Data := (option (result string * heap Data)).

(** ** class OneOfStrategy *)

Module OneOfStrategy.
Section Methods.
Context {Data : Type} `{!External Data}.

(** The constructor call [OneOfStrategy(strategies)]: a new object, set up
    by [__init__].  [SearchStrategy.__init__] does nothing. *)
Definition __init__ (h : heap Data) (strategies : list value)
  : result value * heap Data :=
  if (length strategies <=? 1)%nat then
    (Err (ValueError "Need at least 2 strategies to choose amongst"), h)
  else
    let (self, h) := alloc h (OneOfStrategy strategies) in
    (Ok (VRef self), h).

(** [do_draw(self, data)]; [draw] is [data.draw]. *)
Definition do_draw (draw : value → Data → drawn Data)
    (h : heap Data) (self : loc) (data : Data) : drawn Data :=
  match h !! self with
  | Some (OneOfStrategy element_strategies) =>
      let (i, data) :=
        integer_range data 0 (Z.of_nat (length element_strategies) - 1) in
      match i with
      | Err e => Some (Err e, data)
      | Ok i =>
          match py_getitem element_strategies i with
          | Err e => Some (Err e, data)
          | Ok strategy => draw strategy data
          end
      end
  | _ => Some (Err (AttributeError "element_strategies"), data)
  end.

(** [__repr__(self)]; [repr] is the builtin, which dispatches on the
    class of its argument. *)
Definition __repr__ (repr : heap Data → value → described Data)
    (h : heap Data) (self : loc) : described Data :=
  match h !! self with
  | Some (OneOfStrategy element_strategies) =>
      match map_repr repr h element_strategies with
      | None => None
      | Some (Err e, h) => Some (Err e, h)
      | Some (Ok rs, h) => Some (Ok (String.concat " | " rs), h)
      end
  | _ => Some (Err (AttributeError "element_strategies"), h)
  end.

End Methods.
End OneOfStrategy.

(** ** class MappedSearchStrategy *)

Module MappedSearchStrategy.
Section Methods.
Context {Data : Type} `{!External Data}.

(** The constructor call [MappedSearchStrategy(strategy, pack)]. *)
Definition __init__ (h : heap Data) (strategy : value) (pack : option callable)
  : value * heap Data :=
  let (self, h) := alloc h (MappedSearchStrategy strategy pack None) in
  (VRef self, h).

(** [do_draw(self, data)]; [do_draw] on the wrapped strategy is the
    dynamic dispatch given as [dispatch].  [self.pack] is looked up before
    the argument is evaluated. *)
Definition do_draw (dispatch : value → Data → drawn Data)
    (h : heap Data) (self : loc) (data : Data) : drawn Data :=
  match h !! self with
  | Some (MappedSearchStrategy mapped_strategy pack _) =>
      match pack with
      | None => Some (Err (AttributeError "pack"), data)
      | Some pack =>
          match dispatch mapped_strategy data with
          | None => None
          | Some (Err e, data) => Some (Err e, data)
          | Some (Ok v, data) => Some (pack v, data)
          end
      end
  | _ => Some (Err (AttributeError "mapped_strategy"), data)
  end.

(** [__repr__(self)].  The operands of [%] are evaluated first, so a
    missing [pack] raises before the wrapped strategy is described; the
    attribute is then written on [self] as the store has it. *)
Definition __repr__ (repr : heap Data → value → described Data)
    (h : heap Data) (self : loc) : described Data :=
  match h !! self with
  | Some (MappedSearchStrategy mapped_strategy pack None) =>
      match pack with
      | None => Some (Err (AttributeError "pack"), h)
      | Some pack =>
          let description := get_pretty_function_description pack in
          match repr h mapped_strategy with
          | None => None
          | Some (Err e, h) => Some (Err e, h)
          | Some (Ok r, h) =>
              let s := r +:+ ".map(" +:+ description +:+ ")" in
              Some (Ok s, alter (set_cached_repr s) self h)
          end
      end
  | Some (MappedSearchStrategy _ _ (Some s)) => Some (Ok s, h)
  | _ => Some (Err (AttributeError "mapped_strategy"), h)
  end.

End Methods.
End MappedSearchStrategy.

(** ** class FilteredStrategy *)

Module FilteredStrategy.
Section Methods.
Context {Data : Type} `{!External Data}.

(** The constructor call [FilteredStrategy(strategy, condition)]. *)
Definition __init__ (h : heap Data) (strategy : value) (condition : callable)
  : value * heap Data :=
  let (self, h) := alloc h (FilteredStrategy condition strategy None) in
  (VRef self, h).

(** [do_draw(self, data)]: the [while True] loop, of which [iterations]
    many rounds are run; [draw] is [data.draw]. *)
Fixpoint do_draw (iterations : nat) (draw : value → Data → drawn Data)
    (h : heap Data) (self : loc) (data : Data) : drawn Data :=
  match iterations with
  | O => None
  | S iterations =>
      match h !! self with
      | Some (FilteredStrategy condition filtered_strategy _) =>
          let start_index := index data in
          match draw filtered_strategy data with
          | None => None
          | Some (Err e, data) => Some (Err e, data)
          | Some (Ok v, data) =>
              match condition v with
              | Err e => Some (Err e, data)
              | Ok c =>
                  if truthy c then Some (Ok v, data)
                  else
                    match assume (index data >? start_index) with
                    | Err e => Some (Err e, data)
                    | Ok _ => do_draw iterations draw h self data
                    end
              end
          end
      | _ => Some (Err (AttributeError "filtered_strategy"), data)
      end
  end.

(** [__repr__(self)]. *)
Definition __repr__ (repr : heap Data → value → described Data)
    (h : heap Data) (self : loc) : described Data :=
  match h !! self with
  | Some (FilteredStrategy condition filtered_strategy None) =>
      let description := get_pretty_function_description condition in
      match repr h filtered_strategy with
      | None => None
      | Some (Err e, h) => Some (Err e, h)
      | Some (Ok r, h) =>
          let s := r +:+ ".filter(" +:+ description +:+ ")" in
          Some (Ok s, alter (set_cached_repr s) self h)
      end
  | Some (FilteredStrategy _ _ (Some s)) => Some (Ok s, h)
  | _ => Some (Err (AttributeError "filtered_strategy"), h)
  end.

End Methods.
End FilteredStrategy.

(** ** class FlatMapStrategy *)

Module FlatMapStrategy.
Section Methods.
Context {Data : Type} `{!External Data}.

(** Modelled from the spec: [FlatMapStrategy.do_draw] is not in this
    module; it "draws a value [x] from [self], then draws from
    [expand(x)]". *)
Definition do_draw (draw : value → Data → drawn Data)
    (h : heap Data) (self : loc) (data : Data) : drawn Data :=
  match h !! self with
  | Some (FlatMapStrategy expand flatmapped_strategy) =>
      match draw flatmapped_strategy data with
      | None => None
      | Some (Err e, data) => Some (Err e, data)
      | Some (Ok x, data) =>
          match expand x with
          | Err e => Some (Err e, data)
          | Ok strategy => draw strategy data
          end
      end
  | _ => Some (Err (AttributeError "flatmapped_strategy"), data)
  end.

End Methods.
End FlatMapStrategy.

(** ** one_of_strategies *)

Section OneOf.
Context {Data : Type} `{!External Data}.

(** [one_of_strategies(xs)]: [not xs] is the empty tuple, [len(xs) == 1]
    the tuple of one element, which is [xs[0]]. *)
Definition one_of_strategies (h : heap Data) (xs : list value)
  : result value * heap Data :=
  match xs with
  | [] => (Err (ValueError "Cannot join an empty list of strategies"), h)
  | [x] => (Ok x, h)
  | _ => OneOfStrategy.__init__ h xs
  end.

End OneOf.

(** ** class SearchStrategy *)

Module SearchStrategy.
Section Methods.
Context {Data : Type} `{!External Data}.

(** [self.map(pack)]. *)
Definition map (h : heap Data) (self : loc) (pack : option callable)
  : value * heap Data :=
  MappedSearchStrategy.__init__ h (VRef self) pack.

(** [self.flatmap(expand)].  Modelled from the spec: the constructor of
    [FlatMapStrategy] is not in this module; it is taken to store its two
    arguments. *)
Definition flatmap (h : heap Data) (self : loc) (expand : callable)
  : value * heap Data :=
  let (l, h) := alloc h (FlatMapStrategy expand (VRef self)) in
  (VRef l, h).

(** [self.filter(condition)]. *)
Definition filter (h : heap Data) (self : loc) (condition : callable)
  : value * heap Data :=
  FilteredStrategy.__init__ h (VRef self) condition.

(** [self | other]. *)
Definition __or__ (h : heap Data) (self : loc) (other : value)
  : result value * heap Data :=
  if negb (isinstance_SearchStrategy h other) then
    (Err (ValueError ("Cannot | a SearchStrategy with " +:+ builtin_repr other)), h)
  else one_of_strategies h [VRef self; other].

(** [do_draw(self, data)] of the base class. *)
Definition do_draw (h : heap Data) (self : loc) (data : Data) : drawn Data :=
  match h !! self with
  | Some o => Some (Err (NotImplementedError (type_name_of o +:+ ".do_draw")), data)
  | None => Some (Err (AttributeError "do_draw"), data)
  end.

End Methods.
End SearchStrategy.

(** ** Drawing and describing, by the class of the object *)

Section Dispatch.
Context {Data : Type} `{!External Data}.

(** Modelled from the spec: [data.draw(strategy)] of the entropy source
    is not in this module; it "delegates to the strategy's generation
    procedure, recursively". *)
Definition draw (do_draw : value → Data → drawn Data)
    (strategy : value) (data : Data) : drawn Data :=
  do_draw strategy data.

(** [strategy.do_draw(data)]: the method of the class of [strategy].  A
    subclass that does not override it inherits [SearchStrategy.do_draw];
    a value that is not a strategy has no such method. *)
Fixpoint do_draw (fuel : nat) (h : heap Data) (strategy : value) (data : Data)
  : drawn Data :=
  match fuel with
  | O => None
  | S fuel =>
      match strategy with
      | VRef self =>
          match h !! self with
          | Some (OneOfStrategy _) =>
              OneOfStrategy.do_draw (draw (do_draw fuel h)) h self data
          | Some (MappedSearchStrategy _ _ _) =>
              MappedSearchStrategy.do_draw (do_draw fuel h) h self data
          | Some (FilteredStrategy _ _ _) =>
              FilteredStrategy.do_draw (S fuel) (draw (do_draw fuel h)) h self data
          | Some (FlatMapStrategy _ _) =>
              FlatMapStrategy.do_draw (draw (do_draw fuel h)) h self data
          | Some (ExternalStrategy _ (Some override)) => Some (override data)
          | Some (ExternalStrategy _ None) => SearchStrategy.do_draw h self data
          | Some (OtherObject _) | None =>
              Some (Err (AttributeError "do_draw"), data)
          end
      | _ => Some (Err (AttributeError "do_draw"), data)
      end
  end.

(** [repr(v)]: [__repr__] of the class of [v] for the three classes of
    this module, the external description for everything else. *)
Fixpoint repr (fuel : nat) (h : heap Data) (v : value) : described Data :=
  match fuel with
  | O => None
  | S fuel =>
      match v with
      | VRef self =>
          match h !! self with
          | Some (OneOfStrategy _) => OneOfStrategy.__repr__ (repr fuel) h self
          | Some (MappedSearchStrategy _ _ _) =>
              MappedSearchStrategy.__repr__ (repr fuel) h self
          | Some (FilteredStrategy _ _ _) =>
              FilteredStrategy.__repr__ (repr fuel) h self
          | _ => Some (Ok (builtin_repr v), h)
          end
      | _ => Some (Ok (builtin_repr v), h)
      end
  end.

(** [g] returns whatever [f] returns: [f] with more fuel. *)
Definition extends (f g : value → Data → drawn Data) : Prop :=
  ∀ strategy data r, f strategy data = Some r → g strategy data = Some r.

(** A [repr] that changes nothing in the store but cached descriptions:
    what the [__repr__] methods ask of the [repr] they call to do the
    same. *)
Definition repr_frame (reprf : heap Data → value → described Data) : Prop :=
  ∀ h v r h', reprf h v = Some (r, h') → same_constructed h h'.

End Dispatch.

(** ** The distribution of a union *)

Section Distribution.
Context {Data : Type}.

(** Modelled from the spec: [integer_range] is not in this module; it
    "draws a uniformly distributed integer in [low, high] inclusive", so
    that a union of [n] constituents hands a draw to each of them with
    probability [1/n].  [selection_probability fuel h strategy target] is
    the probability that one draw from [strategy] is handed, through the
    unions on the way, to the object [target]. *)
Fixpoint selection_probability (fuel : nat) (h : heap Data)
    (strategy target : value) : Q :=
  if bool_decide (strategy = target) then 1%Q
  else
    match fuel with
    | O => 0%Q
    | S fuel =>
        match strategy with
        | VRef self =>
            match h !! self with
            | Some (OneOfStrategy element_strategies) =>
                let each := (1 # Pos.of_nat (length element_strategies))%Q in
                foldr Qplus 0%Q
                  ((λ s, each * selection_probability fuel h s target)%Q
                     <$> element_strategies)
            | _ => 0%Q
            end
        | _ => 0%Q
        end
    end.

End Distribution.

(** ** An entropy source for the examples *)

(** Modelled from the spec: an entropy source that replays recorded
    choices.  [integer_range] takes the next choice into [lower, upper]
    and advances [index] by one; with no choice left the attempt stops. *)
Record replay := Replay { choices : list Z; consumed : Z }.

Definition replay_integer_range (data : replay) (lower upper : Z)
  : result Z * replay :=
  match choices data with
  | [] => (Err (Raise "StopTest" ""), data)
  | c :: rest =>
      (Ok (lower + c `mod` (upper - lower + 1)), Replay rest (consumed data + 1))
  end.

Definition replay_repr (v : value) : string :=
  match v with
  | VNone => "None"
  | VBool true => "True"
  | VBool false => "False"
  | VInt _ => "<int>"
  | VStr s => "'" +:+ s +:+ "'"
  | VRef _ => "<object>"
  end.

Global Instance replay_external : External replay := {|
  index := consumed;
  integer_range := replay_integer_range;
  get_pretty_function_description := λ _, "lambda";
  builtin_repr := replay_repr;
|}.

(** [just(v)]: a strategy defined elsewhere that returns [v] and draws
    nothing. *)
Definition just {Data} (v : value) : object Data :=
  ExternalStrategy "JustStrategy" (Some (λ data, (Ok v, data))).

(** A strategy defined elsewhere that draws one digit. *)
Definition digits `{!External Data} : object Data :=
  ExternalStrategy "BoundedIntStrategy"
    (Some (λ data,
       let (i, data) := integer_range data 0 9 in
       (match i with Ok i => Ok (VInt i) | Err e => Err e end, data))).

(** [lambda x: x == k] for an integer [k]; [True] and [False] compare as
    1 and 0. *)
Definition equals (k : Z) : callable :=
  λ x, Ok (VBool match x with
                 | VInt z => z =? k
                 | VBool b => (if b then 1 else 0) =? k
                 | _ => false
                 end).

(** [lambda x: x + k], a [TypeError] on anything but an integer. *)
Definition plus (k : Z) : callable :=
  λ x, match x with
       | VInt z => Ok (VInt (z + k))
       | _ => Err (Raise "TypeError" "unsupported operand type(s) for +")
       end.

(** A store for the examples.  Defined elsewhere: [just(1)] at 1,
    [just(2)] at 2, [just(3)] at 3, a digit at 4, an object that is no
    strategy at 5, a subclass of [SearchStrategy] without [do_draw] at 6.
    Built from them: [just(1).filter(lambda x: x == 2)] at 7,
    [just(1).filter(lambda x: x == 1)] at 8, the digits equal to 2 at 9,
    the digits plus 10 at 10 and [just(1) | just(2)] at 11. *)
Definition example_heap : heap replay :=
  <[11%positive := OneOfStrategy [VRef 1%positive; VRef 2%positive]]>
  (<[10%positive := MappedSearchStrategy (VRef 4%positive) (Some (plus 10)) None]>
  (<[9%positive := FilteredStrategy (equals 2) (VRef 4%positive) None]>
  (<[8%positive := FilteredStrategy (equals 1) (VRef 1%positive) None]>
  (<[7%positive := FilteredStrategy (equals 2) (VRef 1%positive) None]>
  (<[6%positive := ExternalStrategy "Forgetful" None]>
  (<[5%positive := OtherObject "dict"]>
  (<[4%positive := digits]>
  (<[3%positive := just (VInt 3)]>
  (<[2%positive := just (VInt 2)]>
  (<[1%positive := just (VInt 1)]> ∅)))))))))).

(** The example store with one more strategy: the digits under a
    condition that holds of everything, at 12. *)
Definition example_heap_true : heap replay :=
  <[12%positive := FilteredStrategy (λ _, Ok (VBool true)) (VRef 4%positive) None]>
    example_heap.

(** ** Invariants of the store *)

Section Invariants.
Context {Data : Type} `{!External Data}.

(** Every [OneOfStrategy] of the store has two constituents or more. *)
Definition unions_wide (h : heap Data) : Prop :=
  ∀ l elts, h !! l = Some (OneOfStrategy elts) → (2 ≤ length elts)%nat.

(** No draw of a strategy defined elsewhere moves [data.index] back, and
    neither does [integer_range]. *)
Definition index_monotone (h : heap Data) : Prop :=
  (∀ d lower upper, index d ≤ index (integer_range d lower upper).2)
  ∧ (∀ l name override d,
       h !! l = Some (ExternalStrategy name (Some override)) →
       index d ≤ index (override d).2).

End Invariants.

(** * Properties *)

Section Properties.
Context {Data : Type} `{!External Data}.
Implicit Types (h : heap Data) (o : object Data) (l self : loc).
Implicit Types (v x other strategy : value) (xs : list value) (d data : Data).

(** ** The store under allocation *)

Lemma alloc_spec h o l h' :
  alloc h o = (l, h') → h !! l = None ∧ h' = <[l := o]> h.
Proof.
  unfold alloc. intros [= <- <-]. split; [|done].
  apply not_elem_of_dom, is_fresh.
Qed.

Lemma alloc_frame h o l h' l0 o0 :
  alloc h o = (l, h') → h !! l0 = Some o0 → h' !! l0 = Some o0.
Proof.
  intros [Hl ->]%alloc_spec Hl0.
  rewrite lookup_insert_ne; [done | congruence].
Qed.

Lemma isinstance_SearchStrategy_ref h v :
  isinstance_SearchStrategy h v = true →
  ∃ l o, v = VRef l ∧ h !! l = Some o ∧ ∀ name, o ≠ OtherObject name.
Proof.
  destruct v as [| | | |l]; simpl; try done.
  destruct (h !! l) as [o|] eqn:Hl; [|done].
  intros Ho. exists l, o. split_and!; [done..|].
  intros name ->. done.
Qed.

(** ** Construction *)

Lemma OneOfStrategy_init_ok h xs :
  (2 ≤ length xs)%nat →
  ∃ l, OneOfStrategy.__init__ h xs = (Ok (VRef l), <[l := OneOfStrategy xs]> h)
       ∧ h !! l = None.
Proof.
  intros Hlen. unfold OneOfStrategy.__init__.
  destruct (Nat.leb_spec (length xs) 1) as [?|_]; [lia|].
  destruct (alloc h (OneOfStrategy xs)) as [l h'] eqn:Ha.
  apply alloc_spec in Ha as [Hl ->]. by exists l.
Qed.

Lemma OneOfStrategy_init_err h xs :
  (length xs < 2)%nat →
  OneOfStrategy.__init__ h xs
  = (Err (ValueError "Need at least 2 strategies to choose amongst"), h).
Proof.
  intros Hlen. unfold OneOfStrategy.__init__.
  destruct (Nat.leb_spec (length xs) 1) as [_|?]; [done | lia].
Qed.

(** C2.  [one_of_strategies] on two or more strategies returns a new
    [OneOfStrategy] whose constituents are the input, so as many; on one
    strategy it returns that very object and allocates nothing; on none it
    raises the empty-union error; and the constructor of [OneOfStrategy]
    itself refuses fewer than two. *)
Theorem one_of_strategies_arity h xs :
  ((2 ≤ length xs)%nat →
     ∃ l elts, one_of_strategies h xs = (Ok (VRef l), <[l := OneOfStrategy elts]> h)
               ∧ h !! l = None ∧ elts = xs ∧ length elts = length xs)
  ∧ (∀ x, xs = [x] → one_of_strategies h xs = (Ok x, h))
  ∧ (xs = [] →
     one_of_strategies h xs
     = (Err (ValueError "Cannot join an empty list of strategies"), h))
  ∧ ((length xs < 2)%nat →
     OneOfStrategy.__init__ h xs
     = (Err (ValueError "Need at least 2 strategies to choose amongst"), h)).
Proof.
  split_and!.
  - intros Hlen. destruct xs as [|x [|y xs']]; [simpl in Hlen; lia..|].
    unfold one_of_strategies.
    destruct (OneOfStrategy_init_ok h (x :: y :: xs') Hlen) as (l & -> & Hl).
    by exists l, (x :: y :: xs').
  - by intros x ->.
  - by intros ->.
  - apply OneOfStrategy_init_err.
Qed.

Lemma or_non_strategy h self other :
  isinstance_SearchStrategy h other = false →
  SearchStrategy.__or__ h self other
  = (Err (ValueError ("Cannot | a SearchStrategy with " +:+ builtin_repr other)), h).
Proof. unfold SearchStrategy.__or__. by intros ->. Qed.

Lemma or_strategy h self other :
  isinstance_SearchStrategy h other = true →
  ∃ l, SearchStrategy.__or__ h self other
       = (Ok (VRef l), <[l := OneOfStrategy [VRef self; other]]> h)
       ∧ h !! l = None.
Proof.
  unfold SearchStrategy.__or__. intros ->. simpl.
  destruct (OneOfStrategy_init_ok h [VRef self; other]) as (l & -> & Hl);
    [simpl; lia|].
  by exists l.
Qed.

(** C6.  [self | other] with an [other] that is no [SearchStrategy]
    returns nothing but the [ValueError], from the call of the operator
    itself and with the store as it was; with an [other] that is one it
    returns a new strategy, the union of the two. *)
Theorem or_rejects_non_strategy h self other :
  (isinstance_SearchStrategy h other = false →
     SearchStrategy.__or__ h self other
     = (Err (ValueError ("Cannot | a SearchStrategy with " +:+ builtin_repr other)), h))
  ∧ (isinstance_SearchStrategy h other = true →
     ∃ l, SearchStrategy.__or__ h self other
          = (Ok (VRef l), <[l := OneOfStrategy [VRef self; other]]> h)
          ∧ h !! l = None
          ∧ isinstance_SearchStrategy (<[l := OneOfStrategy [VRef self; other]]> h) (VRef l) = true).
Proof.
  split; intros Hother.
  - by apply or_non_strategy.
  - destruct (or_strategy h self other Hother) as (l & Hor & Hl).
    exists l. split_and!; [done..|].
    simpl. by rewrite lookup_insert_eq.
Qed.

(** C7.  The [do_draw] of the base class raises [NotImplementedError]
    with the name of the class of [self], whatever the entropy source and
    without touching it; this is what a draw from an instance of a
    subclass that does not override [do_draw] gives. *)
Theorem base_do_draw_not_implemented h self o data :
  h !! self = Some o →
  SearchStrategy.do_draw h self data
  = Some (Err (NotImplementedError (type_name_of o +:+ ".do_draw")), data)
  ∧ (∀ name fuel, o = ExternalStrategy name None →
       do_draw (S fuel) h (VRef self) data
       = Some (Err (NotImplementedError (name +:+ ".do_draw")), data)).
Proof.
  intros Hself. unfold SearchStrategy.do_draw. rewrite Hself. split; [done|].
  intros name fuel ->. simpl. rewrite Hself.
  unfold SearchStrategy.do_draw. by rewrite Hself.
Qed.

(** C10.  The empty union, the direct construction of a [OneOfStrategy]
    from fewer than two strategies, and the union with an operand that is
    no strategy raise exceptions of one class, [ValueError]; the messages
    differ. *)
Theorem construction_errors_are_ValueError h self other xs :
  (length xs < 2)%nat →
  isinstance_SearchStrategy h other = false →
  ∃ empty_union too_few invalid_operand,
    one_of_strategies h [] = (Err empty_union, h)
    ∧ OneOfStrategy.__init__ h xs = (Err too_few, h)
    ∧ SearchStrategy.__or__ h self other = (Err invalid_operand, h)
    ∧ exn_class empty_union = "ValueError"
    ∧ exn_class too_few = "ValueError"
    ∧ exn_class invalid_operand = "ValueError"
    ∧ exn_message empty_union ≠ exn_message invalid_operand
    ∧ exn_message empty_union ≠ exn_message too_few
    ∧ exn_message too_few ≠ exn_message invalid_operand.
Proof.
  intros Hlen Hother. eexists _, _, _. split_and!.
  - reflexivity.
  - by apply OneOfStrategy_init_err.
  - by apply or_non_strategy.
  - done.
  - done.
  - done.
  - simpl. discriminate.
  - simpl. discriminate.
  - simpl. discriminate.
Qed.

(** ** Drawing *)

Lemma do_draw_OneOfStrategy fuel h self elts d :
  h !! self = Some (OneOfStrategy elts) →
  do_draw (S fuel) h (VRef self) d
  = OneOfStrategy.do_draw (draw (do_draw fuel h)) h self d.
Proof. intros Hself. simpl. by rewrite Hself. Qed.

Lemma do_draw_MappedSearchStrategy fuel h self s f c d :
  h !! self = Some (MappedSearchStrategy s f c) →
  do_draw (S fuel) h (VRef self) d
  = MappedSearchStrategy.do_draw (do_draw fuel h) h self d.
Proof. intros Hself. simpl. by rewrite Hself. Qed.

Lemma do_draw_FilteredStrategy fuel h self condition s c d :
  h !! self = Some (FilteredStrategy condition s c) →
  do_draw (S fuel) h (VRef self) d
  = FilteredStrategy.do_draw (S fuel) (draw (do_draw fuel h)) h self d.
Proof. intros Hself. cbn [do_draw]. by rewrite Hself. Qed.

Lemma py_getitem_in_range {A} (l : list A) (i : Z) :
  0 ≤ i ≤ Z.of_nat (length l) - 1 →
  ∃ a, l !! Z.to_nat i = Some a ∧ py_getitem l i = Ok a.
Proof.
  intros Hi. unfold py_getitem.
  destruct (Z.ltb_spec i 0) as [?|_]; [lia|].
  destruct (Z.leb_spec 0 i) as [_|?]; [|lia].
  destruct (Z.ltb_spec i (Z.of_nat (length l))) as [_|?]; [|lia].
  simpl. destruct (lookup_lt_is_Some_2 l (Z.to_nat i)) as [a Ha]; [lia|].
  exists a. by rewrite Ha.
Qed.

(** C4.  A draw from a [OneOfStrategy] of [n] constituents takes its
    index from [integer_range(data, 0, n - 1)] and then is the draw from
    the constituent at that index, on the entropy source as
    [integer_range] left it: the same result, untouched.  An exception of
    [integer_range] is the result. *)
Theorem OneOfStrategy_do_draw_index h self elts d fuel r d1 :
  h !! self = Some (OneOfStrategy elts) →
  integer_range d 0 (Z.of_nat (length elts) - 1) = (r, d1) →
  match r with
  | Err e => do_draw (S fuel) h (VRef self) d = Some (Err e, d1)
  | Ok i =>
      0 ≤ i ≤ Z.of_nat (length elts) - 1 →
      ∃ s, elts !! Z.to_nat i = Some s
           ∧ do_draw (S fuel) h (VRef self) d = do_draw fuel h s d1
  end.
Proof.
  intros Hself Hrange.
  rewrite (do_draw_OneOfStrategy _ _ _ _ _ Hself).
  unfold OneOfStrategy.do_draw. rewrite Hself, Hrange.
  destruct r as [i|e]; [|done].
  intros Hi. destruct (py_getitem_in_range elts i Hi) as (s & Hs & ->).
  by exists s.
Qed.

(** C3.  A draw from a [MappedSearchStrategy] returns [pack(v)] for the
    [v] the wrapped strategy returns on the same entropy source, and
    leaves the source as the wrapped strategy alone leaves it; an
    exception of the wrapped strategy is passed on; and nothing else comes
    out of it. *)
Theorem MappedSearchStrategy_do_draw_pack h self s f c d fuel :
  h !! self = Some (MappedSearchStrategy s (Some f) c) →
  (∀ v d1, do_draw fuel h s d = Some (Ok v, d1) →
           do_draw (S fuel) h (VRef self) d = Some (f v, d1))
  ∧ (∀ e d1, do_draw fuel h s d = Some (Err e, d1) →
             do_draw (S fuel) h (VRef self) d = Some (Err e, d1))
  ∧ (∀ r d1, do_draw (S fuel) h (VRef self) d = Some (r, d1) →
             ∃ r0, do_draw fuel h s d = Some (r0, d1)
                   ∧ r = match r0 with Ok v => f v | Err e => Err e end).
Proof.
  intros Hself.
  rewrite (do_draw_MappedSearchStrategy _ _ _ _ _ _ _ Hself).
  unfold MappedSearchStrategy.do_draw. rewrite Hself.
  split_and!.
  - by intros v d1 ->.
  - by intros e d1 ->.
  - intros r d1. destruct (do_draw fuel h s d) as [[[v|e] d0]|]; [| |done].
    + intros [= <- <-]. by exists (Ok v).
    + intros [= <- <-]. by exists (Err e).
Qed.

Lemma FilteredStrategy_do_draw_unfold k (drawf : value → Data → drawn Data)
    h self condition s c d :
  h !! self = Some (FilteredStrategy condition s c) →
  FilteredStrategy.do_draw (S k) drawf h self d
  = match drawf s d with
    | None => None
    | Some (Err e, d1) => Some (Err e, d1)
    | Some (Ok v, d1) =>
        match condition v with
        | Err e => Some (Err e, d1)
        | Ok x =>
            if truthy x then Some (Ok v, d1)
            else if index d1 >? index d
                 then FilteredStrategy.do_draw k drawf h self d1
                 else Some (Err UnsatisfiedAssumption, d1)
        end
    end.
Proof.
  intros Hself. simpl. rewrite Hself.
  destruct (drawf s d) as [[[v|e] d1]|]; [|done..].
  destruct (condition v) as [x|e]; [|done].
  destruct (truthy x); [done|].
  by destruct (index d1 >? index d).
Qed.

Lemma filter_stores h self condition :
  ∃ l, SearchStrategy.filter h self condition
       = (VRef l, <[l := FilteredStrategy condition (VRef self) None]> h)
       ∧ h !! l = None.
Proof.
  unfold SearchStrategy.filter, FilteredStrategy.__init__.
  destruct (alloc h _) as [l h'] eqn:Ha. apply alloc_spec in Ha as [Hl ->].
  by exists l.
Qed.

(** C5.  When the value drawn satisfies the condition, the draw from a
    [FilteredStrategy] returns that value in the round that drew it,
    whether or not the round advanced the entropy source.  So
    [A.filter(lambda x: x == 1)], for a strategy [A] that always returns
    1, returns 1 in the first round of its loop. *)
Theorem FilteredStrategy_do_draw_accepts :
  (∀ h self condition s c (drawf : value → Data → drawn Data) d v d1 x k,
     h !! self = Some (FilteredStrategy condition s c) →
     drawf s d = Some (Ok v, d1) → condition v = Ok x → truthy x = true →
     FilteredStrategy.do_draw (S k) drawf h self d = Some (Ok v, d1))
  ∧ (∀ h a name g filtered h' d fuel,
       h !! a = Some (ExternalStrategy name (Some g)) →
       (∀ d0, (g d0).1 = Ok (VInt 1)) →
       SearchStrategy.filter h a (equals 1) = (filtered, h') →
       ∃ self,
         filtered = VRef self
         ∧ FilteredStrategy.do_draw 1 (draw (do_draw (S fuel) h')) h' self d
           = Some (Ok (VInt 1), (g d).2)
         ∧ do_draw (S (S fuel)) h' filtered d = Some (Ok (VInt 1), (g d).2)).
Proof.
  split.
  - intros h self condition s c drawf d v d1 x k Hself Hdraw Hcond Htrue.
    rewrite (FilteredStrategy_do_draw_unfold _ _ _ _ _ _ _ _ Hself).
    by rewrite Hdraw, Hcond, Htrue.
  - intros h a name g filtered h' d fuel Ha Hg Hfilter.
    destruct (filter_stores h a (equals 1)) as (self & Hstores & Hfresh).
    rewrite Hstores in Hfilter. injection Hfilter as <- <-.
    set (h' := <[self := _]> h).
    assert (h' !! self = Some (FilteredStrategy (equals 1) (VRef a) None))
      as Hself by apply lookup_insert_eq.
    assert (h' !! a = Some (ExternalStrategy name (Some g))) as Ha'.
    { unfold h'. rewrite lookup_insert_ne; [done | congruence]. }
    assert (draw (do_draw (S fuel) h') (VRef a) d = Some (Ok (VInt 1), (g d).2))
      as Hdraw.
    { unfold draw. simpl. rewrite Ha'. specialize (Hg d).
      destruct (g d) as [r d1]. simpl in *. by subst. }
    exists self. split_and!; [done| |].
    + rewrite (FilteredStrategy_do_draw_unfold _ _ _ _ _ _ _ _ Hself).
      by rewrite Hdraw.
    + rewrite (do_draw_FilteredStrategy _ _ _ _ _ _ _ Hself).
      rewrite (FilteredStrategy_do_draw_unfold _ _ _ _ _ _ _ _ Hself).
      by rewrite Hdraw.
Qed.

(** C1.  A round of the loop of [FilteredStrategy.do_draw] that draws a
    value the condition rejects: if the entropy source did not advance
    past where the round started, the draw raises [UnsatisfiedAssumption]
    there and then, however many rounds it is given; if it advanced, the
    loop goes on from the new state, and a later round that makes no
    progress from there raises even though the source is past the first
    start.  So on a wrapped strategy that returns without advancing the
    source, one round always ends the draw. *)
Theorem FilteredStrategy_do_draw_progress h self condition s c
    (drawf : value → Data → drawn Data) :
  h !! self = Some (FilteredStrategy condition s c) →
  (∀ d v d1 x k,
     drawf s d = Some (Ok v, d1) → condition v = Ok x → truthy x = false →
     (index d1 ≤ index d →
        FilteredStrategy.do_draw (S k) drawf h self d
        = Some (Err UnsatisfiedAssumption, d1))
     ∧ (index d < index d1 →
        FilteredStrategy.do_draw (S k) drawf h self d
        = FilteredStrategy.do_draw k drawf h self d1)
     ∧ (index d < index d1 →
        ∀ v2 d2 x2,
          drawf s d1 = Some (Ok v2, d2) → condition v2 = Ok x2 →
          truthy x2 = false → index d2 ≤ index d1 →
          FilteredStrategy.do_draw (S (S k)) drawf h self d
          = Some (Err UnsatisfiedAssumption, d2)))
  ∧ ((∀ d, ∃ r d1, drawf s d = Some (r, d1) ∧ index d1 ≤ index d) →
     ∀ d, ∃ r d1, FilteredStrategy.do_draw 1 drawf h self d = Some (r, d1)).
Proof.
  intros Hself.
  assert (∀ d v d1 x k,
     drawf s d = Some (Ok v, d1) → condition v = Ok x → truthy x = false →
     index d1 ≤ index d →
     FilteredStrategy.do_draw (S k) drawf h self d
     = Some (Err UnsatisfiedAssumption, d1)) as Habandon.
  { intros d v d1 x k Hdraw Hcond Hfalse Hle.
    rewrite (FilteredStrategy_do_draw_unfold _ _ _ _ _ _ _ _ Hself).
    rewrite Hdraw, Hcond, Hfalse.
    destruct (Z.gtb_spec (index d1) (index d)); [lia | done]. }
  assert (∀ d v d1 x k,
     drawf s d = Some (Ok v, d1) → condition v = Ok x → truthy x = false →
     index d < index d1 →
     FilteredStrategy.do_draw (S k) drawf h self d
     = FilteredStrategy.do_draw k drawf h self d1) as Hretry.
  { intros d v d1 x k Hdraw Hcond Hfalse Hlt.
    rewrite (FilteredStrategy_do_draw_unfold _ _ _ _ _ _ _ _ Hself).
    rewrite Hdraw, Hcond, Hfalse.
    destruct (Z.gtb_spec (index d1) (index d)); [done | lia]. }
  split.
  - intros d v d1 x k Hdraw Hcond Hfalse. split_and!; [by eauto..|].
    intros Hlt v2 d2 x2 Hdraw2 Hcond2 Hfalse2 Hle2.
    rewrite (Hretry _ _ _ _ _ Hdraw Hcond Hfalse Hlt). by eauto.
  - intros Hzero d. destruct (Hzero d) as (r & d1 & Hdraw & Hle).
    rewrite (FilteredStrategy_do_draw_unfold _ _ _ _ _ _ _ _ Hself).
    rewrite Hdraw. destruct r as [v|e]; [|by eauto].
    destruct (condition v) as [x|e]; [|by eauto].
    destruct (truthy x); [by eauto|].
    destruct (Z.gtb_spec (index d1) (index d)); [lia | by eauto].
Qed.

(** ** Fuel

    A result does not depend on the fuel that was enough for it. *)

Lemma OneOfStrategy_do_draw_mono (f g : value → Data → drawn Data) h self d r :
  extends f g →
  OneOfStrategy.do_draw f h self d = Some r →
  OneOfStrategy.do_draw g h self d = Some r.
Proof.
  intros Hfg. unfold OneOfStrategy.do_draw.
  destruct (h !! self) as [[elts| | | | |]|]; try done.
  destruct (integer_range d 0 _) as [[i|e] d1]; [|done].
  destruct (py_getitem elts i) as [s|e]; [|done]. apply Hfg.
Qed.

Lemma MappedSearchStrategy_do_draw_mono (f g : value → Data → drawn Data)
    h self d r :
  extends f g →
  MappedSearchStrategy.do_draw f h self d = Some r →
  MappedSearchStrategy.do_draw g h self d = Some r.
Proof.
  intros Hfg. unfold MappedSearchStrategy.do_draw.
  destruct (h !! self) as [[|s [pack|] c| | | |]|]; try done.
  destruct (f s d) as [r0|] eqn:Hf; [|done].
  by rewrite (Hfg _ _ _ Hf).
Qed.

Lemma FlatMapStrategy_do_draw_mono (f g : value → Data → drawn Data)
    h self d r :
  extends f g →
  FlatMapStrategy.do_draw f h self d = Some r →
  FlatMapStrategy.do_draw g h self d = Some r.
Proof.
  intros Hfg. unfold FlatMapStrategy.do_draw.
  destruct (h !! self) as [[| | |expand s| |]|]; try done.
  destruct (f s d) as [r0|] eqn:Hf; [|done].
  rewrite (Hfg _ _ _ Hf). destruct r0 as [[x|e] d1]; [|done].
  destruct (expand x) as [s'|e]; [|done]. apply Hfg.
Qed.

Lemma FilteredStrategy_do_draw_mono (f g : value → Data → drawn Data)
    h self k k' d r :
  extends f g → (k ≤ k')%nat →
  FilteredStrategy.do_draw k f h self d = Some r →
  FilteredStrategy.do_draw k' g h self d = Some r.
Proof.
  intros Hfg. revert k' d.
  induction k as [|k IH]; intros k' d Hk; [done|].
  destruct k' as [|k']; [lia|]. simpl.
  destruct (h !! self) as [[| |condition s c| | |]|]; try done.
  destruct (f s d) as [r0|] eqn:Hf; [|done].
  rewrite (Hfg _ _ _ Hf). destruct r0 as [[v|e] d1]; [|done].
  destruct (condition v) as [x|e]; [|done].
  destruct (truthy x); [done|].
  destruct (assume _); [|done]. apply IH. lia.
Qed.

Lemma do_draw_mono fuel fuel' h :
  (fuel ≤ fuel')%nat → extends (do_draw fuel h) (do_draw fuel' h).
Proof.
  revert fuel'. induction fuel as [|fuel IH]; intros fuel' Hle s d r; [done|].
  destruct fuel' as [|fuel']; [lia|].
  assert (extends (do_draw fuel h) (do_draw fuel' h)) as Hext
    by (apply IH; lia).
  cbn [do_draw]. destruct s as [| | | |self]; try done.
  destruct (h !! self) as [[| | | | |]|]; try done.
  - by apply OneOfStrategy_do_draw_mono.
  - by apply MappedSearchStrategy_do_draw_mono.
  - apply FilteredStrategy_do_draw_mono; [done | lia].
  - by apply FlatMapStrategy_do_draw_mono.
Qed.

(** The loop of the filter is bounded by the entropy there is: when the
    wrapped draw always returns and the source never goes past [limit],
    the draw returns or raises within [limit - index + 1] rounds. *)
Lemma FilteredStrategy_do_draw_terminates h self condition s c
    (drawf : value → Data → drawn Data) (limit : Z) :
  h !! self = Some (FilteredStrategy condition s c) →
  (∀ d, ∃ r d1, drawf s d = Some (r, d1) ∧ index d1 ≤ limit) →
  ∀ k d, limit - index d ≤ Z.of_nat k →
         ∃ r d1, FilteredStrategy.do_draw (S k) drawf h self d = Some (r, d1).
Proof.
  intros Hself Hdraw. induction k as [|k IH]; intros d Hk;
    rewrite (FilteredStrategy_do_draw_unfold _ _ _ _ _ _ _ _ Hself);
    destruct (Hdraw d) as (r & d1 & -> & Hlimit);
    (destruct r as [v|e]; [|by eauto]);
    (destruct (condition v) as [x|e]; [|by eauto]);
    (destruct (truthy x); [by eauto|]);
    (destruct (Z.gtb_spec (index d1) (index d)); [|by eauto]).
  - lia.
  - apply IH. lia.
Qed.

(** ** Construction leaves the strategies as they are *)

Lemma preserved_insert h l o : h !! l = None → preserved h (<[l := o]> h).
Proof.
  intros Hl l0 o0 Hl0. rewrite lookup_insert_ne; [done | congruence].
Qed.

Lemma new_strategy_insert h l o :
  h !! l = None → (∀ name, o ≠ OtherObject name) →
  new_strategy h (<[l := o]> h) (VRef l).
Proof.
  intros Hl Ho. exists l. split_and!; [done..|].
  simpl. rewrite lookup_insert_eq. destruct o; try done. by destruct (Ho type_name).
Qed.

Lemma same_constructed_refl h : same_constructed h h.
Proof. by intros l. Qed.

Lemma same_constructed_trans h1 h2 h3 :
  same_constructed h1 h2 → same_constructed h2 h3 → same_constructed h1 h3.
Proof. intros H12 H23 l. by rewrite H23, H12. Qed.

Lemma constructed_set_cached_repr str o :
  constructed (set_cached_repr str o) = constructed o.
Proof. by destruct o. Qed.

Lemma same_constructed_cache h self str :
  same_constructed h (alter (set_cached_repr str) self h).
Proof.
  intros l. destruct (decide (self = l)) as [->|Hne].
  - rewrite lookup_alter_eq. destruct (h !! l) as [o|]; [|done].
    simpl. by rewrite constructed_set_cached_repr.
  - by rewrite lookup_alter_ne.
Qed.

Lemma map_repr_frame reprf h xs r h' :
  repr_frame reprf → map_repr reprf h xs = Some (r, h') → same_constructed h h'.
Proof.
  intros Hframe. revert h r h'.
  induction xs as [|x xs IH]; intros h r h'; simpl.
  - intros [= <- <-]. apply same_constructed_refl.
  - destruct (reprf h x) as [[[rx|e] h1]|] eqn:Hx; [| |done].
    + destruct (map_repr reprf h1 xs) as [[[rs|e] h2]|] eqn:Hxs; [| |done];
        intros [= <- <-];
        (eapply same_constructed_trans; [by eapply Hframe | by eapply IH]).
    + intros [= <- <-]. by eapply Hframe.
Qed.

Lemma OneOfStrategy_repr_frame reprf h self r h' :
  repr_frame reprf →
  OneOfStrategy.__repr__ reprf h self = Some (r, h') → same_constructed h h'.
Proof.
  intros Hframe. unfold OneOfStrategy.__repr__.
  destruct (h !! self) as [[elts| | | | |]|];
    try (intros [= <- <-]; apply same_constructed_refl).
  destruct (map_repr reprf h elts) as [[[rs|e] h1]|] eqn:Hm; [| |done];
    intros [= <- <-]; by eapply map_repr_frame.
Qed.

Lemma MappedSearchStrategy_repr_frame reprf h self r h' :
  repr_frame reprf →
  MappedSearchStrategy.__repr__ reprf h self = Some (r, h') →
  same_constructed h h'.
Proof.
  intros Hframe. unfold MappedSearchStrategy.__repr__.
  destruct (h !! self) as [[|s [f|] [str|]| | | |]|];
    try (intros [= <- <-]; apply same_constructed_refl).
  destruct (reprf h s) as [[[rs|e] h1]|] eqn:Hs; [| |done]; intros [= <- <-].
  - eapply same_constructed_trans; [by eapply Hframe|].
    apply same_constructed_cache.
  - by eapply Hframe.
Qed.

Lemma FilteredStrategy_repr_frame reprf h self r h' :
  repr_frame reprf →
  FilteredStrategy.__repr__ reprf h self = Some (r, h') →
  same_constructed h h'.
Proof.
  intros Hframe. unfold FilteredStrategy.__repr__.
  destruct (h !! self) as [[| |f s [str|]| | |]|];
    try (intros [= <- <-]; apply same_constructed_refl).
  destruct (reprf h s) as [[[rs|e] h1]|] eqn:Hs; [| |done]; intros [= <- <-].
  - eapply same_constructed_trans; [by eapply Hframe|].
    apply same_constructed_cache.
  - by eapply Hframe.
Qed.

Lemma repr_same_constructed fuel : repr_frame (repr fuel).
Proof.
  induction fuel as [|fuel IH]; intros h v r h'; simpl; [done|].
  destruct v as [| | | |self];
    try (intros [= <- <-]; apply same_constructed_refl).
  destruct (h !! self) as [[| | | | |]|] eqn:Hself;
    try (intros [= <- <-]; apply same_constructed_refl).
  - by apply OneOfStrategy_repr_frame.
  - by apply MappedSearchStrategy_repr_frame.
  - by apply FilteredStrategy_repr_frame.
Qed.

(** C8.  [map], [filter], [flatmap] and [|] return a strategy that the
    store did not hold and leave every object of the store, the receiver
    among them, with all its attributes; [|] that raises leaves the store
    as it was.  [repr] is the one operation that writes to an existing
    strategy, and it changes nothing but cached descriptions.  A draw
    takes the store as an argument and returns none. *)
Theorem construction_leaves_receiver h self :
  (∀ pack v h', SearchStrategy.map h self pack = (v, h') →
     preserved h h' ∧ new_strategy h h' v)
  ∧ (∀ condition v h', SearchStrategy.filter h self condition = (v, h') →
     preserved h h' ∧ new_strategy h h' v)
  ∧ (∀ expand v h', SearchStrategy.flatmap h self expand = (v, h') →
     preserved h h' ∧ new_strategy h h' v)
  ∧ (∀ other r h', SearchStrategy.__or__ h self other = (r, h') →
     preserved h h'
     ∧ match r with
       | Ok v => new_strategy h h' v
       | Err _ => h' = h
       end)
  ∧ (∀ fuel v r h', repr fuel h v = Some (r, h') → same_constructed h h').
Proof.
  split_and!.
  - intros pack v h'. unfold SearchStrategy.map, MappedSearchStrategy.__init__.
    destruct (alloc h _) as [l h1] eqn:Ha. apply alloc_spec in Ha as [Hl ->].
    intros [= <- <-]. split; [by apply preserved_insert|].
    by apply new_strategy_insert.
  - intros condition v h'.
    unfold SearchStrategy.filter, FilteredStrategy.__init__.
    destruct (alloc h _) as [l h1] eqn:Ha. apply alloc_spec in Ha as [Hl ->].
    intros [= <- <-]. split; [by apply preserved_insert|].
    by apply new_strategy_insert.
  - intros expand v h'. unfold SearchStrategy.flatmap.
    destruct (alloc h _) as [l h1] eqn:Ha. apply alloc_spec in Ha as [Hl ->].
    intros [= <- <-]. split; [by apply preserved_insert|].
    by apply new_strategy_insert.
  - intros other r h' Hor.
    destruct (isinstance_SearchStrategy h other) eqn:Hother.
    + destruct (or_strategy h self other Hother) as (l & Hl & Hfresh).
      rewrite Hl in Hor. injection Hor as <- <-.
      split; [by apply preserved_insert|]. by apply new_strategy_insert.
    + rewrite (or_non_strategy h self other Hother) in Hor.
      injection Hor as <- <-. split; [|done]. by intros l o.
  - intros fuel v r h'. apply repr_same_constructed.
Qed.

(** ** Unions of unions *)

Lemma selection_probability_self fuel h v :
  selection_probability fuel h v v = 1%Q.
Proof. destruct fuel; simpl; by rewrite bool_decide_eq_true_2. Qed.

Lemma selection_probability_leaf fuel h v target :
  v ≠ target → is_OneOfStrategy h v = false →
  selection_probability fuel h v target = 0%Q.
Proof.
  intros Hne Hleaf.
  destruct fuel; simpl; rewrite bool_decide_eq_false_2 by done; [done|].
  destruct v as [| | | |l]; try done. simpl in Hleaf.
  by destruct (h !! l) as [[| | | | |]|].
Qed.

Lemma selection_probability_pair fuel h l x y target :
  VRef l ≠ target → h !! l = Some (OneOfStrategy [x; y]) →
  selection_probability (S fuel) h (VRef l) target
  = (((1 # 2) * selection_probability fuel h x target)
     + (((1 # 2) * selection_probability fuel h y target) + 0))%Q.
Proof.
  intros Hne Hl. simpl. rewrite bool_decide_eq_false_2 by done.
  by rewrite Hl.
Qed.

Lemma is_OneOfStrategy_insert h l o v :
  h !! l = None → isinstance_SearchStrategy h v = true →
  is_OneOfStrategy (<[l := o]> h) v = is_OneOfStrategy h v.
Proof.
  intros Hl (l0 & o0 & -> & Hl0 & _)%isinstance_SearchStrategy_ref.
  simpl. rewrite lookup_insert_ne; [done | congruence].
Qed.

Lemma isinstance_SearchStrategy_insert h l o v :
  h !! l = None → isinstance_SearchStrategy h v = true →
  isinstance_SearchStrategy (<[l := o]> h) v = true.
Proof.
  intros Hl Hv.
  destruct (isinstance_SearchStrategy_ref h v Hv) as (l0 & o0 & -> & Hl0 & _).
  simpl in *. rewrite lookup_insert_ne; [done | congruence].
Qed.

(** C9.  [(A | B) | C] is a [OneOfStrategy] of two constituents, the
    union of [A] and [B] and then [C]; the union of [A] and [B] is itself
    one of two.  A draw from it takes an index in [0, 1]: on 1 it is the
    draw from [C], on 0 it takes a second index and is the draw from [A]
    or from [B].  With [A], [B], [C] three different strategies that are
    no unions, a draw goes to [C] with probability 1/2 and to each of [A]
    and [B] with probability 1/4. *)
Theorem or_does_not_flatten h a B C :
  isinstance_SearchStrategy h (VRef a) = true →
  isinstance_SearchStrategy h B = true →
  isinstance_SearchStrategy h C = true →
  ∃ ab abc h1 h2,
    SearchStrategy.__or__ h a B = (Ok (VRef ab), h1)
    ∧ SearchStrategy.__or__ h1 ab C = (Ok (VRef abc), h2)
    ∧ h2 !! ab = Some (OneOfStrategy [VRef a; B])
    ∧ h2 !! abc = Some (OneOfStrategy [VRef ab; C])
    ∧ (∀ fuel d d1,
         integer_range d 0 1 = (Ok 1, d1) →
         do_draw (S fuel) h2 (VRef abc) d = do_draw fuel h2 C d1)
    ∧ (∀ fuel d d1 d2,
         integer_range d 0 1 = (Ok 0, d1) →
         (integer_range d1 0 1 = (Ok 0, d2) →
          do_draw (S (S fuel)) h2 (VRef abc) d = do_draw fuel h2 (VRef a) d2)
         ∧ (integer_range d1 0 1 = (Ok 1, d2) →
            do_draw (S (S fuel)) h2 (VRef abc) d = do_draw fuel h2 B d2))
    ∧ (VRef a ≠ B → VRef a ≠ C → B ≠ C →
       is_OneOfStrategy h (VRef a) = false →
       is_OneOfStrategy h B = false →
       is_OneOfStrategy h C = false →
       ∀ fuel,
         (selection_probability (S (S fuel)) h2 (VRef abc) C == 1 # 2)%Q
         ∧ (selection_probability (S (S fuel)) h2 (VRef abc) (VRef a) == 1 # 4)%Q
         ∧ (selection_probability (S (S fuel)) h2 (VRef abc) B == 1 # 4)%Q).
Proof.
  intros Ha HB HC.
  destruct (or_strategy h a B HB) as (ab & Hab & Hfab).
  set (h1 := <[ab := OneOfStrategy [VRef a; B]]> h) in *.
  assert (isinstance_SearchStrategy h1 C = true) as HC1
    by by apply isinstance_SearchStrategy_insert.
  destruct (or_strategy h1 ab C HC1) as (abc & Habc & Hfabc).
  set (h2 := <[abc := OneOfStrategy [VRef ab; C]]> h1) in *.
  assert (h1 !! ab = Some (OneOfStrategy [VRef a; B])) as Hlab1
    by apply lookup_insert_eq.
  assert (ab ≠ abc) as Hne by congruence.
  assert (h2 !! ab = Some (OneOfStrategy [VRef a; B])) as Hlab.
  { unfold h2. by rewrite lookup_insert_ne. }
  assert (h2 !! abc = Some (OneOfStrategy [VRef ab; C])) as Hlabc
    by apply lookup_insert_eq.
  exists ab, abc, h1, h2. split_and!; [done..| | |].
  - intros fuel d d1 Hd.
    rewrite (do_draw_OneOfStrategy _ _ _ _ _ Hlabc).
    unfold OneOfStrategy.do_draw. rewrite Hlabc. simpl length.
    change (Z.of_nat 2 - 1) with 1. by rewrite Hd.
  - intros fuel d d1 d2 Hd.
    assert (do_draw (S (S fuel)) h2 (VRef abc) d
            = do_draw (S fuel) h2 (VRef ab) d1) as ->.
    { rewrite (do_draw_OneOfStrategy _ _ _ _ _ Hlabc).
      unfold OneOfStrategy.do_draw. rewrite Hlabc. simpl length.
      change (Z.of_nat 2 - 1) with 1. by rewrite Hd. }
    rewrite (do_draw_OneOfStrategy _ _ _ _ _ Hlab).
    unfold OneOfStrategy.do_draw. rewrite Hlab. simpl length.
    change (Z.of_nat 2 - 1) with 1.
    split; intros ->; done.
  - intros HaB HaC HBC Hla HlB HlC fuel.
    destruct (isinstance_SearchStrategy_ref h _ Ha) as (? & oa & [= <-] & Hoa & _).
    destruct (isinstance_SearchStrategy_ref h _ HB) as (b & ob & -> & Hob & _).
    destruct (isinstance_SearchStrategy_ref h _ HC) as (c & oc & -> & Hoc & _).
    assert (∀ l o, h !! l = Some o → h1 !! l = Some o) as Hh1.
    { intros l o Hl. unfold h1. rewrite lookup_insert_ne; [done | congruence]. }
    pose proof (Hh1 _ _ Hoa) as Hoa1.
    pose proof (Hh1 _ _ Hob) as Hob1.
    pose proof (Hh1 _ _ Hoc) as Hoc1.
    assert (∀ v, isinstance_SearchStrategy h v = true →
                 is_OneOfStrategy h2 v = is_OneOfStrategy h v) as Hleaf.
    { intros v Hv. unfold h2.
      rewrite is_OneOfStrategy_insert;
        [| done | by apply isinstance_SearchStrategy_insert].
      by apply is_OneOfStrategy_insert. }
    assert (VRef abc ≠ VRef c) by congruence.
    assert (VRef abc ≠ VRef a) by congruence.
    assert (VRef abc ≠ VRef b) by congruence.
    assert (VRef ab ≠ VRef c) by congruence.
    assert (VRef ab ≠ VRef a) by congruence.
    assert (VRef ab ≠ VRef b) by congruence.
    rewrite !(selection_probability_pair _ _ abc _ _ _) by done.
    rewrite !(selection_probability_pair _ _ ab _ _ _) by done.
    rewrite !selection_probability_self.
    rewrite !selection_probability_leaf by (done || by rewrite Hleaf).
    split_and!; reflexivity.
Qed.

End Properties.

(** * The properties on the example store *)

Lemma FilteredStrategy_do_draw_progress_example :
  FilteredStrategy.do_draw 1 (draw (do_draw 1 example_heap)) example_heap
    7%positive (Replay [] 0)
  = Some (Err UnsatisfiedAssumption, Replay [] 0)
  ∧ FilteredStrategy.do_draw 2 (draw (do_draw 1 example_heap)) example_heap
      9%positive (Replay [5; 2] 0)
    = FilteredStrategy.do_draw 1 (draw (do_draw 1 example_heap)) example_heap
        9%positive (Replay [2] 1).
Proof.
  split.
  - assert (example_heap !! 7%positive
            = Some (FilteredStrategy (equals 2) (VRef 1%positive) None)) as Hself
      by (vm_compute; reflexivity).
    destruct (FilteredStrategy_do_draw_progress example_heap 7%positive
                (equals 2) (VRef 1%positive) None
                (draw (do_draw 1 example_heap)) Hself) as [Hround _].
    destruct (Hround (Replay [] 0) (VInt 1) (Replay [] 0) (VBool false) 0%nat)
      as (Habandon & _ & _); [vm_compute; reflexivity ..|].
    apply Habandon. simpl. lia.
  - assert (example_heap !! 9%positive
            = Some (FilteredStrategy (equals 2) (VRef 4%positive) None)) as Hself
      by (vm_compute; reflexivity).
    destruct (FilteredStrategy_do_draw_progress example_heap 9%positive
                (equals 2) (VRef 4%positive) None
                (draw (do_draw 1 example_heap)) Hself) as [Hround _].
    destruct (Hround (Replay [5; 2] 0) (VInt 5) (Replay [2] 1) (VBool false) 1%nat)
      as (_ & Hretry & _); [vm_compute; reflexivity ..|].
    apply Hretry. simpl. lia.
Defined.

Lemma one_of_strategies_arity_example :
  (∃ l elts,
     one_of_strategies example_heap [VRef 1%positive; VRef 2%positive; VRef 3%positive]
     = (Ok (VRef l), <[l := OneOfStrategy elts]> example_heap)
     ∧ example_heap !! l = None
     ∧ elts = [VRef 1%positive; VRef 2%positive; VRef 3%positive]
     ∧ length elts = 3%nat)
  ∧ one_of_strategies example_heap [VRef 1%positive]
    = (Ok (VRef 1%positive), example_heap)
  ∧ OneOfStrategy.__init__ example_heap [VRef 1%positive]
    = (Err (ValueError "Need at least 2 strategies to choose amongst"), example_heap).
Proof.
  split_and!.
  - apply (one_of_strategies_arity example_heap
             [VRef 1%positive; VRef 2%positive; VRef 3%positive]).
    simpl. lia.
  - by apply (one_of_strategies_arity example_heap [VRef 1%positive]).
  - apply (one_of_strategies_arity example_heap [VRef 1%positive]).
    simpl. lia.
Defined.

Lemma MappedSearchStrategy_do_draw_pack_example :
  do_draw 2 example_heap (VRef 10%positive) (Replay [5] 0)
  = Some (Ok (VInt 15), Replay [] 1).
Proof.
  assert (example_heap !! 10%positive
          = Some (MappedSearchStrategy (VRef 4%positive) (Some (plus 10)) None))
    as Hself by (vm_compute; reflexivity).
  destruct (MappedSearchStrategy_do_draw_pack example_heap 10%positive
              (VRef 4%positive) (plus 10) None (Replay [5] 0) 1 Hself)
    as (Hpack & _ & _).
  apply (Hpack (VInt 5) (Replay [] 1)). vm_compute. reflexivity.
Defined.

Lemma OneOfStrategy_do_draw_index_example :
  ∃ s, [VRef 1%positive; VRef 2%positive] !! Z.to_nat 1 = Some s
       ∧ do_draw 2 example_heap (VRef 11%positive) (Replay [1] 0)
         = do_draw 1 example_heap s (Replay [] 1).
Proof.
  assert (example_heap !! 11%positive
          = Some (OneOfStrategy [VRef 1%positive; VRef 2%positive]))
    as Hself by (vm_compute; reflexivity).
  apply (OneOfStrategy_do_draw_index example_heap 11%positive
           [VRef 1%positive; VRef 2%positive] (Replay [1] 0) 1
           (Ok 1) (Replay [] 1) Hself).
  - vm_compute. reflexivity.
  - simpl. lia.
Defined.

Lemma FilteredStrategy_do_draw_accepts_example :
  do_draw 2 (SearchStrategy.filter example_heap 1%positive (equals 1)).2
    (SearchStrategy.filter example_heap 1%positive (equals 1)).1 (Replay [] 0)
  = Some (Ok (VInt 1), Replay [] 0)
  ∧ FilteredStrategy.do_draw 1 (draw (do_draw 1 example_heap)) example_heap
      8%positive (Replay [] 0)
    = Some (Ok (VInt 1), Replay [] 0).
Proof.
  destruct (@FilteredStrategy_do_draw_accepts replay _) as [Hround Hfilter].
  split.
  - destruct (Hfilter example_heap 1%positive "JustStrategy"
                (λ data, (Ok (VInt 1), data))
                (SearchStrategy.filter example_heap 1%positive (equals 1)).1
                (SearchStrategy.filter example_heap 1%positive (equals 1)).2
                (Replay [] 0) 0%nat)
      as (self & _ & _ & Hdraw);
      [vm_compute; reflexivity | done | apply surjective_pairing |].
    exact Hdraw.
  - apply (Hround example_heap 8%positive (equals 1) (VRef 1%positive) None
             (draw (do_draw 1 example_heap)) (Replay [] 0) (VInt 1)
             (Replay [] 0) (VBool true) 0%nat);
      vm_compute; reflexivity.
Defined.

Lemma or_rejects_non_strategy_example :
  SearchStrategy.__or__ example_heap 1%positive (VRef 5%positive)
  = (Err (ValueError "Cannot | a SearchStrategy with <object>"), example_heap)
  ∧ ∃ l, SearchStrategy.__or__ example_heap 1%positive (VRef 2%positive)
         = (Ok (VRef l),
            <[l := OneOfStrategy [VRef 1%positive; VRef 2%positive]]> example_heap)
         ∧ example_heap !! l = None.
Proof.
  split.
  - destruct (or_rejects_non_strategy example_heap 1%positive (VRef 5%positive))
      as [Herr _].
    apply Herr. vm_compute. reflexivity.
  - destruct (or_rejects_non_strategy example_heap 1%positive (VRef 2%positive))
      as [_ Hok].
    destruct Hok as (l & Hor & Hl & _); [vm_compute; reflexivity|].
    by exists l.
Defined.

Lemma base_do_draw_not_implemented_example :
  do_draw 1 example_heap (VRef 6%positive) (Replay [4] 0)
  = Some (Err (NotImplementedError "Forgetful.do_draw"), Replay [4] 0).
Proof.
  assert (example_heap !! 6%positive = Some (ExternalStrategy "Forgetful" None))
    as Hself by (vm_compute; reflexivity).
  destruct (base_do_draw_not_implemented example_heap 6%positive _
              (Replay [4] 0) Hself) as [_ Hsub].
  by apply (Hsub "Forgetful" 0%nat).
Defined.

Lemma construction_leaves_receiver_example :
  preserved example_heap (SearchStrategy.map example_heap 1%positive (Some (plus 1))).2
  ∧ new_strategy example_heap
      (SearchStrategy.map example_heap 1%positive (Some (plus 1))).2
      (SearchStrategy.map example_heap 1%positive (Some (plus 1))).1.
Proof.
  destruct (construction_leaves_receiver example_heap 1%positive) as [Hmap _].
  apply (Hmap (Some (plus 1))). apply surjective_pairing.
Defined.

Lemma or_does_not_flatten_example :
  ∃ ab abc h1 h2,
    SearchStrategy.__or__ example_heap 1%positive (VRef 2%positive)
    = (Ok (VRef ab), h1)
    ∧ SearchStrategy.__or__ h1 ab (VRef 3%positive) = (Ok (VRef abc), h2)
    ∧ h2 !! ab = Some (OneOfStrategy [VRef 1%positive; VRef 2%positive])
    ∧ h2 !! abc = Some (OneOfStrategy [VRef ab; VRef 3%positive])
    ∧ (selection_probability 2 h2 (VRef abc) (VRef 3%positive) == 1 # 2)%Q
    ∧ (selection_probability 2 h2 (VRef abc) (VRef 1%positive) == 1 # 4)%Q
    ∧ (selection_probability 2 h2 (VRef abc) (VRef 2%positive) == 1 # 4)%Q.
Proof.
  destruct (or_does_not_flatten example_heap 1%positive (VRef 2%positive)
              (VRef 3%positive))
    as (ab & abc & h1 & h2 & Hab & Habc & Hlab & Hlabc & _ & _ & Hprob);
    [vm_compute; reflexivity ..|].
  exists ab, abc, h1, h2. split_and!; [done..| | |];
    apply (Hprob ltac:(done) ltac:(done) ltac:(done)
             ltac:(vm_compute; reflexivity) ltac:(vm_compute; reflexivity)
             ltac:(vm_compute; reflexivity) 0%nat).
Defined.

Lemma construction_errors_are_ValueError_example :
  ∃ empty_union too_few invalid_operand,
    one_of_strategies example_heap [] = (Err empty_union, example_heap)
    ∧ OneOfStrategy.__init__ example_heap [VRef 1%positive]
      = (Err too_few, example_heap)
    ∧ SearchStrategy.__or__ example_heap 1%positive (VInt 3)
      = (Err invalid_operand, example_heap)
    ∧ exn_class empty_union = "ValueError"
    ∧ exn_class too_few = "ValueError"
    ∧ exn_class invalid_operand = "ValueError"
    ∧ exn_message empty_union ≠ exn_message invalid_operand
    ∧ exn_message empty_union ≠ exn_message too_few
    ∧ exn_message too_few ≠ exn_message invalid_operand.
Proof.
  apply (construction_errors_are_ValueError example_heap 1%positive (VInt 3)
           [VRef 1%positive]).
  - simpl. lia.
  - reflexivity.
Defined.

(** * More properties of the combinators *)

Section Combinators.
Context {Data : Type} `{!External Data}.
Implicit Types (h : heap Data) (o : object Data) (l self : loc).
Implicit Types (v x other strategy : value) (xs : list value) (d data : Data).

(** ** The filter *)

Lemma FilteredStrategy_do_draw_ok h self condition s c
    (drawf : value → Data → drawn Data) k d v d' :
  h !! self = Some (FilteredStrategy condition s c) →
  FilteredStrategy.do_draw k drawf h self d = Some (Ok v, d') →
  (∃ x, condition v = Ok x ∧ truthy x = true)
  ∧ (∃ d0, drawf s d0 = Some (Ok v, d')).
Proof.
  intros Hself. revert d. induction k as [|k IH]; intros d; [done|].
  rewrite (FilteredStrategy_do_draw_unfold _ _ _ _ _ _ _ _ Hself).
  destruct (drawf s d) as [[[v0|e] d1]|] eqn:Hd; [|done..].
  destruct (condition v0) as [x|e] eqn:Hc; [|done].
  destruct (truthy x) eqn:Ht.
  - intros [= <- <-]. split; by eauto.
  - destruct (index d1 >? index d); [apply IH | done].
Qed.

(** A value a [FilteredStrategy] returns was returned by the wrapped
    strategy, in the round that ended the loop, and satisfies the
    condition. *)
Theorem FilteredStrategy_do_draw_sound h self condition s c
    (drawf : value → Data → drawn Data) k d v d' :
  h !! self = Some (FilteredStrategy condition s c) →
  FilteredStrategy.do_draw k drawf h self d = Some (Ok v, d') →
  (∃ x, condition v = Ok x ∧ truthy x = true)
  ∧ (∃ d0, drawf s d0 = Some (Ok v, d')).
Proof. apply FilteredStrategy_do_draw_ok. Qed.

(** An exception out of a [FilteredStrategy] is one the wrapped strategy
    raised, or one the condition raised on a drawn value, or
    [UnsatisfiedAssumption] for a rejected value whose round did not
    advance the entropy source: the filter raises nothing else and
    swallows nothing. *)
Theorem FilteredStrategy_do_draw_raises h self condition s c
    (drawf : value → Data → drawn Data) k d e d' :
  h !! self = Some (FilteredStrategy condition s c) →
  FilteredStrategy.do_draw k drawf h self d = Some (Err e, d') →
  (∃ d0, drawf s d0 = Some (Err e, d'))
  ∨ (∃ d0 v, drawf s d0 = Some (Ok v, d') ∧ condition v = Err e)
  ∨ (e = UnsatisfiedAssumption
     ∧ ∃ d0 v x, drawf s d0 = Some (Ok v, d') ∧ condition v = Ok x
                 ∧ truthy x = false ∧ index d' ≤ index d0).
Proof.
  intros Hself. revert d. induction k as [|k IH]; intros d; [done|].
  rewrite (FilteredStrategy_do_draw_unfold _ _ _ _ _ _ _ _ Hself).
  destruct (drawf s d) as [[[v0|e0] d1]|] eqn:Hd; [| |done].
  - destruct (condition v0) as [x|e0] eqn:Hc.
    + destruct (truthy x) eqn:Ht; [done|].
      destruct (Z.gtb_spec (index d1) (index d)); [apply IH|].
      intros [= <- <-]. right. right. split; [done|].
      exists d, v0, x. by split_and!.
    + intros [= <- <-]. right. left. by eauto.
  - intros [= <- <-]. left. by eauto.
Qed.

(** With a condition that holds of every value the filter is the wrapped
    strategy: one round, the same result, the same entropy. *)
Theorem FilteredStrategy_do_draw_always_true h self condition s c
    (drawf : value → Data → drawn Data) k d :
  h !! self = Some (FilteredStrategy condition s c) →
  (∀ v, ∃ x, condition v = Ok x ∧ truthy x = true) →
  FilteredStrategy.do_draw (S k) drawf h self d = drawf s d.
Proof.
  intros Hself Htrue.
  rewrite (FilteredStrategy_do_draw_unfold _ _ _ _ _ _ _ _ Hself).
  destruct (drawf s d) as [[[v|e] d1]|]; [|done..].
  destruct (Htrue v) as (x & -> & ->). done.
Qed.

(** The loop ends when the entropy does: if every round that advances the
    source uses up some of a finite budget, and the wrapped draw always
    returns, the draw from the filter returns or raises within
    [budget + 1] rounds. *)
Theorem FilteredStrategy_do_draw_budget h self condition s c
    (drawf : value → Data → drawn Data) (budget : Data → nat) :
  h !! self = Some (FilteredStrategy condition s c) →
  (∀ d, ∃ r d1, drawf s d = Some (r, d1)
                ∧ (index d < index d1 → (budget d1 < budget d)%nat)) →
  ∀ d, ∃ r d1,
    FilteredStrategy.do_draw (S (budget d)) drawf h self d = Some (r, d1).
Proof.
  intros Hself Hdraw.
  assert (∀ n d, (budget d ≤ n)%nat →
            ∃ r d1, FilteredStrategy.do_draw (S n) drawf h self d = Some (r, d1))
    as Hrounds; [|by intros d; apply Hrounds].
  induction n as [|n IH]; intros d Hn;
    rewrite (FilteredStrategy_do_draw_unfold _ _ _ _ _ _ _ _ Hself);
    destruct (Hdraw d) as (r & d1 & -> & Hless);
    (destruct r as [v|e]; [|by eauto]);
    (destruct (condition v) as [x|e]; [|by eauto]);
    (destruct (truthy x); [by eauto|]);
    (destruct (Z.gtb_spec (index d1) (index d)) as [Hgt|]; [|by eauto]).
  - specialize (Hless ltac:(lia)). lia.
  - apply IH. specialize (Hless ltac:(lia)). lia.
Qed.

(** ** The map *)

(** [s.map(f).map(g)] draws as [s] does and returns [g(f(v))]; an
    exception of [s] or of [f] comes out as it is. *)
Theorem map_map_do_draw h self (f g : callable) m1 h1 m2 h2 fuel d :
  SearchStrategy.map h self (Some f) = (VRef m1, h1) →
  SearchStrategy.map h1 m1 (Some g) = (VRef m2, h2) →
  do_draw (S (S fuel)) h2 (VRef m2) d
  = match do_draw fuel h2 (VRef self) d with
    | None => None
    | Some (Err e, d1) => Some (Err e, d1)
    | Some (Ok v, d1) =>
        Some (match f v with Ok w => g w | Err e => Err e end, d1)
    end.
Proof.
  unfold SearchStrategy.map, MappedSearchStrategy.__init__.
  destruct (alloc h _) as [l1 h1'] eqn:Ha1. intros [= -> ->].
  destruct (alloc h1 _) as [l2 h2'] eqn:Ha2. intros [= -> ->].
  apply alloc_spec in Ha1 as [Hl1 ->]. apply alloc_spec in Ha2 as [Hl2 ->].
  assert (m1 ≠ m2) as Hne.
  { intros ->. by rewrite lookup_insert_eq in Hl2. }
  set (h2 := <[m2 := _]> _).
  assert (h2 !! m2 = Some (MappedSearchStrategy (VRef m1) (Some g) None)) as H2
    by apply lookup_insert_eq.
  assert (h2 !! m1 = Some (MappedSearchStrategy (VRef self) (Some f) None)) as H1.
  { unfold h2. rewrite lookup_insert_ne by done. apply lookup_insert_eq. }
  rewrite (do_draw_MappedSearchStrategy _ _ _ _ _ _ _ H2).
  unfold MappedSearchStrategy.do_draw at 1. rewrite H2.
  rewrite (do_draw_MappedSearchStrategy _ _ _ _ _ _ _ H1).
  unfold MappedSearchStrategy.do_draw. rewrite H1.
  destruct (do_draw fuel h2 (VRef self) d) as [[[v|e] d1]|]; [|done..].
  by destruct (f v).
Qed.

(** [s.map(lambda x: x)] draws exactly what [s] draws. *)
Theorem map_identity_do_draw h self (f : callable) m h' fuel d :
  SearchStrategy.map h self (Some f) = (VRef m, h') →
  (∀ v, f v = Ok v) →
  do_draw (S fuel) h' (VRef m) d = do_draw fuel h' (VRef self) d.
Proof.
  unfold SearchStrategy.map, MappedSearchStrategy.__init__.
  destruct (alloc h _) as [l1 h1] eqn:Ha. intros [= -> ->] Hid.
  apply alloc_spec in Ha as [Hl ->].
  set (h' := <[m := _]> _).
  assert (h' !! m = Some (MappedSearchStrategy (VRef self) (Some f) None)) as Hm
    by apply lookup_insert_eq.
  rewrite (do_draw_MappedSearchStrategy _ _ _ _ _ _ _ Hm).
  unfold MappedSearchStrategy.do_draw. rewrite Hm.
  destruct (do_draw fuel h' (VRef self) d) as [[[v|e] d1]|]; [|done..].
  by rewrite Hid.
Qed.

(** A [MappedSearchStrategy] built without [pack] has no such attribute:
    a draw from it raises [AttributeError] before it draws, so with the
    entropy source untouched, and so does its [repr], with the store
    untouched. *)
Theorem map_without_pack h self m h' fuel d :
  SearchStrategy.map h self None = (VRef m, h') →
  (∃ msg, do_draw (S fuel) h' (VRef m) d = Some (Err (AttributeError msg), d))
  ∧ (∃ msg, repr (S fuel) h' (VRef m) = Some (Err (AttributeError msg), h')).
Proof.
  unfold SearchStrategy.map, MappedSearchStrategy.__init__.
  destruct (alloc h _) as [l1 h1] eqn:Ha. intros [= -> ->].
  apply alloc_spec in Ha as [Hl ->].
  set (h' := <[m := _]> _).
  assert (h' !! m = Some (MappedSearchStrategy (VRef self) None None)) as Hm
    by apply lookup_insert_eq.
  split.
  - rewrite (do_draw_MappedSearchStrategy _ _ _ _ _ _ _ Hm).
    unfold MappedSearchStrategy.do_draw. rewrite Hm. by eexists.
  - cbn [repr]. rewrite Hm.
    unfold MappedSearchStrategy.__repr__. rewrite Hm. by eexists.
Qed.

(** ** Descriptions *)

Lemma same_constructed_lookup h h' l o :
  same_constructed h h' → h !! l = Some o →
  ∃ o', h' !! l = Some o' ∧ constructed o' = constructed o.
Proof.
  intros Hsc Hl. specialize (Hsc l). rewrite Hl in Hsc.
  destruct (h' !! l) as [o'|]; [|done].
  exists o'. split; [done|]. by injection Hsc.
Qed.

(** The description of a [MappedSearchStrategy] or a [FilteredStrategy]
    is computed once: after a [repr] that returned, the object holds the
    string as [_cached_repr], and every later [repr] returns that string
    without looking at the wrapped strategy and without writing. *)
Theorem repr_computed_once fuel h self r h' :
  (∃ s p c, h !! self = Some (MappedSearchStrategy s p c))
  ∨ (∃ f s c, h !! self = Some (FilteredStrategy f s c)) →
  repr (S fuel) h (VRef self) = Some (Ok r, h') →
  (∃ o, h' !! self = Some o ∧ cached_repr o = Some r)
  ∧ ∀ fuel', repr (S fuel') h' (VRef self) = Some (Ok r, h').
Proof.
  intros [(s & p & c & Hself)|(f & s & c & Hself)]; cbn [repr]; rewrite Hself.
  - unfold MappedSearchStrategy.__repr__ at 1. rewrite Hself.
    destruct c as [str|].
    + intros [= <- <-]. split; [by eauto|].
      intros fuel'. cbn [repr]. rewrite Hself.
      unfold MappedSearchStrategy.__repr__. by rewrite Hself.
    + destruct p as [pack|]; [|done].
      destruct (repr fuel h s) as [[[rs|e] h1]|] eqn:Hs; [|done..].
      intros [= <- <-].
      destruct (same_constructed_lookup h h1 self _
                  (repr_same_constructed fuel _ _ _ _ Hs) Hself)
        as (o1 & Ho1 & Hc1).
      destruct o1; try done. simpl in Hc1. injection Hc1 as -> ->.
      match goal with |- context [alter ?g self h1] =>
        assert (alter g self h1 !! self
                = Some (MappedSearchStrategy s (Some pack)
                          (Some (rs +:+ ".map(" +:+ get_pretty_function_description pack +:+ ")"))))
          as Hnew by (by rewrite lookup_alter_eq, Ho1)
      end.
      split; [by eauto|].
      intros fuel'. cbn [repr]. rewrite Hnew.
      unfold MappedSearchStrategy.__repr__. by rewrite Hnew.
  - unfold FilteredStrategy.__repr__ at 1. rewrite Hself.
    destruct c as [str|].
    + intros [= <- <-]. split; [by eauto|].
      intros fuel'. cbn [repr]. rewrite Hself.
      unfold FilteredStrategy.__repr__. by rewrite Hself.
    + destruct (repr fuel h s) as [[[rs|e] h1]|] eqn:Hs; [|done..].
      intros [= <- <-].
      destruct (same_constructed_lookup h h1 self _
                  (repr_same_constructed fuel _ _ _ _ Hs) Hself)
        as (o1 & Ho1 & Hc1).
      destruct o1; try done. simpl in Hc1. injection Hc1 as -> ->.
      match goal with |- context [alter ?g self h1] =>
        assert (alter g self h1 !! self
                = Some (FilteredStrategy f s
                          (Some (rs +:+ ".filter(" +:+ get_pretty_function_description f +:+ ")"))))
          as Hnew by (by rewrite lookup_alter_eq, Ho1)
      end.
      split; [by eauto|].
      intros fuel'. cbn [repr]. rewrite Hnew.
      unfold FilteredStrategy.__repr__. by rewrite Hnew.
Qed.

Lemma FilteredStrategy_do_draw_ext (f g : value → Data → drawn Data)
    h h' self condition s c c' k d :
  (∀ s0 d0, f s0 d0 = g s0 d0) →
  h !! self = Some (FilteredStrategy condition s c) →
  h' !! self = Some (FilteredStrategy condition s c') →
  FilteredStrategy.do_draw k f h self d = FilteredStrategy.do_draw k g h' self d.
Proof.
  intros Hfg Hself Hself'. revert d. induction k as [|k IH]; intros d; [done|].
  rewrite (FilteredStrategy_do_draw_unfold _ _ _ _ _ _ _ _ Hself).
  rewrite (FilteredStrategy_do_draw_unfold _ _ _ _ _ _ _ _ Hself').
  rewrite Hfg. destruct (g s d) as [[[v|e] d1]|]; [|done..].
  destruct (condition v) as [x|e]; [|done].
  destruct (truthy x); [done|]. by rewrite IH.
Qed.

Lemma do_draw_same_constructed fuel h h' s d :
  same_constructed h h' → do_draw fuel h' s d = do_draw fuel h s d.
Proof.
  intros Hsc. revert s d. induction fuel as [|fuel IH]; intros s d; [done|].
  cbn [do_draw]. destruct s as [| | | |self]; try done.
  destruct (h !! self) as [o|] eqn:Hself.
  - destruct (same_constructed_lookup h h' self o Hsc Hself) as (o' & Hself' & Hc).
    rewrite Hself'.
    destruct o, o'; try done; simpl in Hc; simplify_eq.
    + unfold OneOfStrategy.do_draw. rewrite Hself, Hself'.
      destruct (integer_range d 0 _) as [[i|e] d1]; [|done].
      destruct (py_getitem _ i); [|done]. apply IH.
    + unfold MappedSearchStrategy.do_draw. rewrite Hself, Hself'.
      destruct pack; [|done]. by rewrite IH.
    + symmetry. eapply FilteredStrategy_do_draw_ext; [|done..].
      intros s0 d0. unfold draw. symmetry. apply IH.
    + unfold FlatMapStrategy.do_draw. rewrite Hself, Hself'.
      unfold draw. rewrite IH.
      destruct (do_draw fuel h flatmapped_strategy d) as [[[v|e] d1]|]; [|done..].
      destruct (expand v); [|done]. apply IH.
    + destruct draw_override; [done|].
      unfold SearchStrategy.do_draw. by rewrite Hself, Hself'.
  - specialize (Hsc self). rewrite Hself in Hsc.
    destruct (h' !! self); [done|]. done.
Qed.

(** Describing a strategy changes nothing in what it or any other
    strategy draws: after a [repr], every draw gives what it gave in the
    store before. *)
Theorem repr_keeps_draws fuel h v r h' :
  repr fuel h v = Some (r, h') →
  ∀ fuel' s d, do_draw fuel' h' s d = do_draw fuel' h s d.
Proof.
  intros Hrepr fuel' s d. apply do_draw_same_constructed.
  by eapply repr_same_constructed.
Qed.

(** ** The union *)

Lemma py_getitem_elem {A} (l : list A) (i : Z) (a : A) :
  py_getitem l i = Ok a → a ∈ l.
Proof.
  unfold py_getitem. destruct (_ && _); [|done].
  destruct (l !! _) as [a'|] eqn:Hl; [|done].
  intros [= <-]. by eapply list_elem_of_lookup_2.
Qed.

(** A value drawn from a [OneOfStrategy] is a value one of its
    constituents drew, and the entropy source is left as that constituent
    left it. *)
Theorem OneOfStrategy_do_draw_sound h self elts fuel d v d' :
  h !! self = Some (OneOfStrategy elts) →
  do_draw (S fuel) h (VRef self) d = Some (Ok v, d') →
  ∃ s d1, s ∈ elts ∧ do_draw fuel h s d1 = Some (Ok v, d').
Proof.
  intros Hself. rewrite (do_draw_OneOfStrategy _ _ _ _ _ Hself).
  unfold OneOfStrategy.do_draw. rewrite Hself.
  destruct (integer_range d 0 _) as [[i|e] d1]; [|done].
  destruct (py_getitem elts i) as [s|e] eqn:Hi; [|done].
  intros Hdraw. exists s, d1. split; [by eapply py_getitem_elem | done].
Qed.

Lemma unions_wide_insert h l o :
  unions_wide h →
  (∀ elts, o = OneOfStrategy elts → (2 ≤ length elts)%nat) →
  unions_wide (<[l := o]> h).
Proof.
  intros Hwide Ho l0 elts. rewrite lookup_insert. case_decide.
  - intros [= ->]. by apply Ho.
  - apply Hwide.
Qed.

Lemma unions_wide_same_constructed h h' :
  same_constructed h h' → unions_wide h → unions_wide h'.
Proof.
  intros Hsc Hwide l elts Hl. specialize (Hsc l). rewrite Hl in Hsc.
  destruct (h !! l) as [o|] eqn:Ho; [|done].
  injection Hsc as Hc. destruct o; try done. simpl in Hc. injection Hc as <-.
  by eapply Hwide.
Qed.

(** No operation of the module leaves a [OneOfStrategy] of fewer than two
    constituents in the store: the constructors, [one_of_strategies], the
    four combining methods and [repr] keep every union two wide or more. *)
Theorem unions_wide_kept h self :
  unions_wide h →
  (∀ strategies r h', OneOfStrategy.__init__ h strategies = (r, h') →
     unions_wide h')
  ∧ (∀ xs r h', one_of_strategies h xs = (r, h') → unions_wide h')
  ∧ (∀ other r h', SearchStrategy.__or__ h self other = (r, h') →
     unions_wide h')
  ∧ (∀ pack v h', SearchStrategy.map h self pack = (v, h') → unions_wide h')
  ∧ (∀ condition v h', SearchStrategy.filter h self condition = (v, h') →
     unions_wide h')
  ∧ (∀ expand v h', SearchStrategy.flatmap h self expand = (v, h') →
     unions_wide h')
  ∧ (∀ fuel v r h', repr fuel h v = Some (r, h') → unions_wide h').
Proof.
  intros Hwide.
  assert (∀ strategies r h', OneOfStrategy.__init__ h strategies = (r, h') →
            unions_wide h') as Hinit.
  { intros strategies r h'. unfold OneOfStrategy.__init__.
    destruct (Nat.leb_spec (length strategies) 1).
    - by intros [= <- <-].
    - destruct (alloc h _) as [l h1] eqn:Ha. apply alloc_spec in Ha as [_ ->].
      intros [= <- <-]. apply unions_wide_insert; [done|].
      intros elts [= <-]. lia. }
  assert (∀ xs r h', one_of_strategies h xs = (r, h') → unions_wide h')
    as Hone.
  { intros xs r h'. unfold one_of_strategies.
    destruct xs as [|x [|y xs']]; [by intros [= <- <-]..|]. apply Hinit. }
  split_and!; [done | done | | | | |].
  - intros other r h'. unfold SearchStrategy.__or__.
    destruct (negb _); [by intros [= <- <-] | apply Hone].
  - intros pack v h'. unfold SearchStrategy.map, MappedSearchStrategy.__init__.
    destruct (alloc h _) as [l h1] eqn:Ha. apply alloc_spec in Ha as [_ ->].
    intros [= <- <-]. by apply unions_wide_insert.
  - intros condition v h'.
    unfold SearchStrategy.filter, FilteredStrategy.__init__.
    destruct (alloc h _) as [l h1] eqn:Ha. apply alloc_spec in Ha as [_ ->].
    intros [= <- <-]. by apply unions_wide_insert.
  - intros expand v h'. unfold SearchStrategy.flatmap.
    destruct (alloc h _) as [l h1] eqn:Ha. apply alloc_spec in Ha as [_ ->].
    intros [= <- <-]. by apply unions_wide_insert.
  - intros fuel v r h' Hrepr.
    eapply unions_wide_same_constructed; [|done].
    by eapply repr_same_constructed.
Qed.

(** ** The entropy counter *)

Lemma FilteredStrategy_do_draw_index (f : value → Data → drawn Data)
    h self k d r d' :
  (∀ s0 d0 r0 d1, f s0 d0 = Some (r0, d1) → index d0 ≤ index d1) →
  FilteredStrategy.do_draw k f h self d = Some (r, d') →
  index d ≤ index d'.
Proof.
  intros Hf. revert d. induction k as [|k IH]; intros d; [done|]. simpl.
  destruct (h !! self) as [[| |condition s c| | |]|];
    try (intros [= <- <-]; lia).
  destruct (f s d) as [[r0 d1]|] eqn:Hd; [|done].
  pose proof (Hf _ _ _ _ Hd) as Hle.
  destruct r0 as [v|e]; [|by intros [= <- <-]].
  destruct (condition v) as [x|e]; [|by intros [= <- <-]].
  destruct (truthy x); [by intros [= <- <-]|].
  destruct (assume _); [|by intros [= <- <-]].
  intros Hrest. apply IH in Hrest. lia.
Qed.

(** The combinators never move [data.index] back: when [integer_range]
    and the strategies defined elsewhere do not, no draw from a strategy
    of the store does, whatever it returns or raises. *)
Theorem do_draw_index_monotone fuel h s d r d' :
  index_monotone h →
  do_draw fuel h s d = Some (r, d') →
  index d ≤ index d'.
Proof.
  intros [Hrange Hext]. revert s d r d'.
  induction fuel as [|fuel IH]; intros s d r d'; [done|].
  cbn [do_draw]. destruct s as [| | | |self]; try (intros [= <- <-]; lia).
  destruct (h !! self) as [[elts|s0 pack c|condition s0 c|expand s0|name override|]|]
    eqn:Hself; try (intros [= <- <-]; lia).
  - unfold OneOfStrategy.do_draw. rewrite Hself.
    pose proof (Hrange d 0 (Z.of_nat (length elts) - 1)) as Hle.
    destruct (integer_range d 0 _) as [[i|e] d1]; simpl in Hle;
      [|by intros [= <- <-]].
    destruct (py_getitem elts i) as [s|e]; [|by intros [= <- <-]].
    unfold draw. intros Hdraw%IH. lia.
  - unfold MappedSearchStrategy.do_draw. rewrite Hself.
    destruct pack as [pack|]; [|intros [= <- <-]; lia].
    destruct (do_draw fuel h s0 d) as [[[v|e] d1]|] eqn:Hd; [| |done];
      intros [= <- <-]; by eapply IH.
  - apply FilteredStrategy_do_draw_index. unfold draw. apply IH.
  - unfold FlatMapStrategy.do_draw. rewrite Hself. unfold draw.
    destruct (do_draw fuel h s0 d) as [[[v|e] d1]|] eqn:Hd; [| |done].
    + apply IH in Hd. destruct (expand v) as [s|e]; [|by intros [= <- <-]].
      intros Hdraw%IH. lia.
    + intros [= <- <-]. by eapply IH.
  - destruct override as [override|].
    + intros [= Hov]. pose proof (Hext _ _ _ d Hself) as Hle.
      rewrite Hov in Hle. done.
    + unfold SearchStrategy.do_draw. rewrite Hself. intros [= <- <-]. lia.
Qed.

(** ** A flat union *)

(** The union that [one_of_strategies] builds of [n] different strategies
    is flat: of the [n] indices [integer_range] can return, one hands the
    draw to a given constituent and each other one to a different
    constituent. *)
Theorem one_of_strategies_flat h xs l h' target :
  one_of_strategies h xs = (Ok (VRef l), h') →
  (2 ≤ length xs)%nat →
  NoDup xs →
  target ∈ xs →
  ∃ i, 0 ≤ i ≤ Z.of_nat (length xs) - 1
    ∧ (∀ fuel d d1,
         integer_range d 0 (Z.of_nat (length xs) - 1) = (Ok i, d1) →
         do_draw (S fuel) h' (VRef l) d = do_draw fuel h' target d1)
    ∧ (∀ j fuel d d1,
         0 ≤ j ≤ Z.of_nat (length xs) - 1 → j ≠ i →
         integer_range d 0 (Z.of_nat (length xs) - 1) = (Ok j, d1) →
         ∃ s, s ∈ xs ∧ s ≠ target
              ∧ do_draw (S fuel) h' (VRef l) d = do_draw fuel h' s d1).
Proof.
  intros Hone Hlen Hnodup Htarget.
  assert (h' !! l = Some (OneOfStrategy xs)) as Hl.
  { destruct xs as [|x [|y xs']]; [simpl in Hlen; lia..|].
    unfold one_of_strategies in Hone.
    destruct (OneOfStrategy_init_ok h (x :: y :: xs') Hlen) as (l0 & Hinit & _).
    rewrite Hinit in Hone. injection Hone as -> <-. apply lookup_insert_eq. }
  assert (∀ j fuel d d1,
            0 ≤ j ≤ Z.of_nat (length xs) - 1 →
            integer_range d 0 (Z.of_nat (length xs) - 1) = (Ok j, d1) →
            ∃ s, xs !! Z.to_nat j = Some s
                 ∧ do_draw (S fuel) h' (VRef l) d = do_draw fuel h' s d1)
    as Hindex.
  { intros j fuel d d1 Hj Hrange.
    rewrite (do_draw_OneOfStrategy _ _ _ _ _ Hl).
    unfold OneOfStrategy.do_draw. rewrite Hl, Hrange.
    destruct (py_getitem_in_range xs j Hj) as (s & Hs & ->). by exists s. }
  apply list_elem_of_lookup_1 in Htarget as [n Hn].
  pose proof (lookup_lt_Some _ _ _ Hn) as Hlt.
  exists (Z.of_nat n). split_and!; [lia.. | |].
  - intros fuel d d1 Hrange.
    destruct (Hindex (Z.of_nat n) fuel d d1 ltac:(lia) Hrange) as (s & Hs & ->).
    rewrite Nat2Z.id, Hn in Hs. by injection Hs as ->.
  - intros j fuel d d1 Hj Hne Hrange.
    destruct (Hindex j fuel d d1 Hj Hrange) as (s & Hs & ->).
    exists s. split_and!; [by eapply list_elem_of_lookup_2 | | done].
    intros ->. pose proof (NoDup_lookup _ _ _ _ Hnodup Hs Hn). lia.
Qed.

(** ** Combinators of combinators *)

(** A value drawn from [s.filter(p).map(f)] is [f(v)] for a [v] that
    satisfies [p]. *)
Theorem filter_map_do_draw_sound h self (p f : callable) l1 h1 l2 h2 fuel d w d' :
  SearchStrategy.filter h self p = (VRef l1, h1) →
  SearchStrategy.map h1 l1 (Some f) = (VRef l2, h2) →
  do_draw fuel h2 (VRef l2) d = Some (Ok w, d') →
  ∃ v x, p v = Ok x ∧ truthy x = true ∧ f v = Ok w.
Proof.
  unfold SearchStrategy.filter, FilteredStrategy.__init__,
    SearchStrategy.map, MappedSearchStrategy.__init__.
  destruct (alloc h _) as [m1 h1'] eqn:Ha1. intros [= -> ->].
  destruct (alloc h1 _) as [m2 h2'] eqn:Ha2. intros [= -> ->].
  apply alloc_spec in Ha1 as [Hl1 ->]. apply alloc_spec in Ha2 as [Hl2 ->].
  assert (l1 ≠ l2) as Hne.
  { intros ->. by rewrite lookup_insert_eq in Hl2. }
  set (h2 := <[l2 := _]> _).
  assert (h2 !! l2 = Some (MappedSearchStrategy (VRef l1) (Some f) None)) as H2
    by apply lookup_insert_eq.
  assert (h2 !! l1 = Some (FilteredStrategy p (VRef self) None)) as H1.
  { unfold h2. rewrite lookup_insert_ne by done. apply lookup_insert_eq. }
  destruct fuel as [|fuel]; [done|].
  rewrite (do_draw_MappedSearchStrategy _ _ _ _ _ _ _ H2).
  unfold MappedSearchStrategy.do_draw. rewrite H2.
  destruct (do_draw fuel h2 (VRef l1) d) as [[[v|e] d1]|] eqn:Hinner; [|done..].
  intros [= Hf <-].
  destruct fuel as [|fuel]; [done|].
  rewrite (do_draw_FilteredStrategy _ _ _ _ _ _ _ H1) in Hinner.
  destruct (FilteredStrategy_do_draw_ok _ _ _ _ _ _ _ _ _ _ H1 Hinner)
    as [(x & Hp & Hx) _].
  by exists v, x.
Qed.

(** A value drawn from [s.filter(p).filter(q)] satisfies [p] and [q]. *)
Theorem filter_filter_do_draw_sound h self (p q : callable) l1 h1 l2 h2
    fuel d v d' :
  SearchStrategy.filter h self p = (VRef l1, h1) →
  SearchStrategy.filter h1 l1 q = (VRef l2, h2) →
  do_draw fuel h2 (VRef l2) d = Some (Ok v, d') →
  (∃ x, p v = Ok x ∧ truthy x = true) ∧ (∃ y, q v = Ok y ∧ truthy y = true).
Proof.
  unfold SearchStrategy.filter, FilteredStrategy.__init__.
  destruct (alloc h _) as [m1 h1'] eqn:Ha1. intros [= -> ->].
  destruct (alloc h1 _) as [m2 h2'] eqn:Ha2. intros [= -> ->].
  apply alloc_spec in Ha1 as [Hl1 ->]. apply alloc_spec in Ha2 as [Hl2 ->].
  assert (l1 ≠ l2) as Hne.
  { intros ->. by rewrite lookup_insert_eq in Hl2. }
  set (h2 := <[l2 := _]> _).
  assert (h2 !! l2 = Some (FilteredStrategy q (VRef l1) None)) as H2
    by apply lookup_insert_eq.
  assert (h2 !! l1 = Some (FilteredStrategy p (VRef self) None)) as H1.
  { unfold h2. rewrite lookup_insert_ne by done. apply lookup_insert_eq. }
  destruct fuel as [|fuel]; [done|].
  rewrite (do_draw_FilteredStrategy _ _ _ _ _ _ _ H2).
  intros Houter.
  destruct (FilteredStrategy_do_draw_ok _ _ _ _ _ _ _ _ _ _ H2 Houter)
    as [Hq (d0 & Hinner)].
  split; [|done]. unfold draw in Hinner.
  destruct fuel as [|fuel]; [done|].
  rewrite (do_draw_FilteredStrategy _ _ _ _ _ _ _ H1) in Hinner.
  by destruct (FilteredStrategy_do_draw_ok _ _ _ _ _ _ _ _ _ _ H1 Hinner).
Qed.

Lemma append_assoc (s1 s2 s3 : string) :
  (s1 +:+ s2) +:+ s3 = s1 +:+ s2 +:+ s3.
Proof.
  induction s1 as [|a s1 IH]; [done|].
  change (String a ((s1 +:+ s2) +:+ s3) = String a (s1 +:+ s2 +:+ s3)).
  by f_equal.
Qed.

Lemma repr_OneOfStrategy fuel h l elts :
  h !! l = Some (OneOfStrategy elts) →
  repr (S fuel) h (VRef l)
  = match map_repr (repr fuel) h elts with
    | None => None
    | Some (Err e, h) => Some (Err e, h)
    | Some (Ok rs, h) => Some (Ok (String.concat " | " rs), h)
    end.
Proof.
  intros Hl. cbn [repr]. rewrite Hl.
  unfold OneOfStrategy.__repr__. by rewrite Hl.
Qed.

Lemma repr_external fuel h l name override :
  h !! l = Some (ExternalStrategy name override) →
  repr (S fuel) h (VRef l) = Some (Ok (builtin_repr (VRef l)), h).
Proof. intros Hl. cbn [repr]. by rewrite Hl. Qed.

(** The description of a union does not show how it is nested: for three
    strategies defined elsewhere, [(A | B) | C] and
    [one_of_strategies((A, B, C))] have the same [repr], the three
    descriptions joined by [" | "], though they do not draw alike. *)
Theorem union_repr_hides_nesting h a b c na oa nb ob nc oc
    ab abc h1 h2 flat h3 fuel :
  h !! a = Some (ExternalStrategy na oa) →
  h !! b = Some (ExternalStrategy nb ob) →
  h !! c = Some (ExternalStrategy nc oc) →
  SearchStrategy.__or__ h a (VRef b) = (Ok (VRef ab), h1) →
  SearchStrategy.__or__ h1 ab (VRef c) = (Ok (VRef abc), h2) →
  one_of_strategies h [VRef a; VRef b; VRef c] = (Ok (VRef flat), h3) →
  let description :=
    builtin_repr (VRef a) +:+ " | " +:+ builtin_repr (VRef b)
    +:+ " | " +:+ builtin_repr (VRef c) in
  repr (S (S (S fuel))) h2 (VRef abc) = Some (Ok description, h2)
  ∧ repr (S (S fuel)) h3 (VRef flat) = Some (Ok description, h3).
Proof.
  intros Ha Hb Hc Hab Habc Hflat.
  assert (isinstance_SearchStrategy h (VRef b) = true) as Hib
    by (simpl; by rewrite Hb).
  destruct (or_strategy h a (VRef b) Hib) as (l1 & Hor1 & Hf1).
  rewrite Hor1 in Hab. injection Hab as -> <-.
  assert (∀ l o, h !! l = Some o →
            (<[ab := OneOfStrategy [VRef a; VRef b]]> h) !! l = Some o) as Hh1.
  { intros l o Hl. rewrite lookup_insert_ne; [done | congruence]. }
  set (h1 := <[ab := _]> h) in *.
  assert (isinstance_SearchStrategy h1 (VRef c) = true) as Hic
    by (simpl; by rewrite (Hh1 _ _ Hc)).
  destruct (or_strategy h1 ab (VRef c) Hic) as (l2 & Hor2 & Hf2).
  rewrite Hor2 in Habc. injection Habc as -> <-.
  assert (∀ l o, h1 !! l = Some o →
            (<[abc := OneOfStrategy [VRef ab; VRef c]]> h1) !! l = Some o) as Hh2.
  { intros l o Hl. rewrite lookup_insert_ne; [done | congruence]. }
  set (h2 := <[abc := _]> h1) in *.
  destruct (OneOfStrategy_init_ok h [VRef a; VRef b; VRef c]) as (l3 & Hinit & Hf3);
    [simpl; lia|].
  unfold one_of_strategies in Hflat. rewrite Hinit in Hflat.
  injection Hflat as -> <-.
  assert (∀ l o, h !! l = Some o →
            (<[flat := OneOfStrategy [VRef a; VRef b; VRef c]]> h) !! l = Some o)
    as Hh3.
  { intros l o Hl. rewrite lookup_insert_ne; [done | congruence]. }
  set (h3 := <[flat := _]> h) in *.
  intros description. split.
  - assert (h2 !! abc = Some (OneOfStrategy [VRef ab; VRef c])) as Hlabc
      by apply lookup_insert_eq.
    assert (h2 !! ab = Some (OneOfStrategy [VRef a; VRef b])) as Hlab
      by (apply Hh2, lookup_insert_eq).
    rewrite (repr_OneOfStrategy _ _ _ _ Hlabc). cbn [map_repr].
    rewrite (repr_OneOfStrategy _ _ _ _ Hlab). cbn [map_repr].
    rewrite (repr_external _ h2 a na oa) by by apply Hh2, Hh1.
    rewrite (repr_external _ h2 b nb ob) by by apply Hh2, Hh1.
    rewrite (repr_external _ h2 c nc oc) by by apply Hh2, Hh1.
    unfold description. cbn [String.concat]. by rewrite !append_assoc.
  - assert (h3 !! flat = Some (OneOfStrategy [VRef a; VRef b; VRef c])) as Hlflat
      by apply lookup_insert_eq.
    rewrite (repr_OneOfStrategy _ _ _ _ Hlflat). cbn [map_repr].
    rewrite (repr_external _ h3 a na oa) by by apply Hh3.
    rewrite (repr_external _ h3 b nb ob) by by apply Hh3.
    rewrite (repr_external _ h3 c nc oc) by by apply Hh3.
    done.
Qed.

End Combinators.

(** * The further properties on the example store *)

Lemma FilteredStrategy_do_draw_sound_example :
  (∃ x, equals 2 (VInt 2) = Ok x ∧ truthy x = true)
  ∧ (∃ d0, draw (do_draw 1 example_heap) (VRef 4%positive) d0
           = Some (Ok (VInt 2), Replay [3] 3)).
Proof.
  apply (FilteredStrategy_do_draw_sound example_heap 9%positive (equals 2)
           (VRef 4%positive) None (draw (do_draw 1 example_heap)) 3
           (Replay [5; 7; 2; 3] 0) (VInt 2) (Replay [3] 3));
    vm_compute; reflexivity.
Defined.

Lemma FilteredStrategy_do_draw_raises_example :
  (∃ d0, draw (do_draw 1 example_heap) (VRef 1%positive) d0
         = Some (Err UnsatisfiedAssumption, Replay [] 0))
  ∨ (∃ d0 v, draw (do_draw 1 example_heap) (VRef 1%positive) d0
             = Some (Ok v, Replay [] 0)
             ∧ equals 2 v = Err UnsatisfiedAssumption)
  ∨ (UnsatisfiedAssumption = UnsatisfiedAssumption
     ∧ ∃ d0 v x, draw (do_draw 1 example_heap) (VRef 1%positive) d0
                 = Some (Ok v, Replay [] 0)
                 ∧ equals 2 v = Ok x ∧ truthy x = false
                 ∧ index (Replay [] 0) ≤ index d0).
Proof.
  apply (FilteredStrategy_do_draw_raises example_heap 7%positive (equals 2)
           (VRef 1%positive) None (draw (do_draw 1 example_heap)) 1
           (Replay [] 0) UnsatisfiedAssumption (Replay [] 0));
    vm_compute; reflexivity.
Defined.

Lemma FilteredStrategy_do_draw_always_true_example :
  FilteredStrategy.do_draw 1 (draw (do_draw 1 example_heap_true))
    example_heap_true 12%positive (Replay [7] 0)
  = draw (do_draw 1 example_heap_true) (VRef 4%positive) (Replay [7] 0).
Proof.
  apply (FilteredStrategy_do_draw_always_true example_heap_true 12%positive
           (λ _, Ok (VBool true)) (VRef 4%positive) None).
  - vm_compute. reflexivity.
  - intros v. exists (VBool true). split; reflexivity.
Defined.

Lemma FilteredStrategy_do_draw_budget_example :
  ∃ r d1,
    FilteredStrategy.do_draw 3 (draw (do_draw 1 example_heap)) example_heap
      9%positive (Replay [5; 7] 0)
    = Some (r, d1).
Proof.
  apply (FilteredStrategy_do_draw_budget example_heap 9%positive (equals 2)
           (VRef 4%positive) None (draw (do_draw 1 example_heap))
           (λ d, length (choices d)) ltac:(vm_compute; reflexivity)).
  intros [cs n].
  assert (draw (do_draw 1 example_heap) (VRef 4%positive) (Replay cs n)
          = Some (let (i, data) := replay_integer_range (Replay cs n) 0 9 in
                  (match i with Ok i => Ok (VInt i) | Err e => Err e end, data)))
    as -> by (vm_compute; reflexivity).
  destruct cs as [|c cs]; simpl.
  - eexists _, _. split; [reflexivity | simpl; lia].
  - eexists _, _. split; [reflexivity | simpl; lia].
Defined.

Lemma map_map_do_draw_example :
  do_draw 3
    (SearchStrategy.map
       (SearchStrategy.map example_heap 4%positive (Some (plus 1))).2
       12%positive (Some (plus 10))).2
    (VRef 13%positive) (Replay [5] 0)
  = Some (Ok (VInt 16), Replay [] 1).
Proof.
  rewrite (map_map_do_draw example_heap 4%positive (plus 1) (plus 10)
             12%positive
             (SearchStrategy.map example_heap 4%positive (Some (plus 1))).2
             13%positive
             (SearchStrategy.map
                (SearchStrategy.map example_heap 4%positive (Some (plus 1))).2
                12%positive (Some (plus 10))).2
             1 (Replay [5] 0)).
  - vm_compute. reflexivity.
  - vm_compute. reflexivity.
  - vm_compute. reflexivity.
Defined.

Lemma map_identity_do_draw_example :
  do_draw 2 (SearchStrategy.map example_heap 4%positive (Some (λ v, Ok v))).2
    (VRef 12%positive) (Replay [5] 0)
  = do_draw 1 (SearchStrategy.map example_heap 4%positive (Some (λ v, Ok v))).2
      (VRef 4%positive) (Replay [5] 0).
Proof.
  apply (map_identity_do_draw example_heap 4%positive (λ v, Ok v)).
  - vm_compute. reflexivity.
  - reflexivity.
Defined.

Lemma map_without_pack_example :
  (∃ msg, do_draw 1 (SearchStrategy.map example_heap 4%positive None).2
            (VRef 12%positive) (Replay [5] 0)
          = Some (Err (AttributeError msg), Replay [5] 0))
  ∧ (∃ msg, repr 1 (SearchStrategy.map example_heap 4%positive None).2
              (VRef 12%positive)
            = Some (Err (AttributeError msg),
                    (SearchStrategy.map example_heap 4%positive None).2)).
Proof.
  apply (map_without_pack example_heap 4%positive). vm_compute. reflexivity.
Defined.

Lemma repr_computed_once_example :
  (∃ o, alter (set_cached_repr "<object>.map(lambda)") 10%positive example_heap
        !! 10%positive = Some o
        ∧ cached_repr o = Some "<object>.map(lambda)")
  ∧ ∀ fuel',
      repr (S fuel')
        (alter (set_cached_repr "<object>.map(lambda)") 10%positive example_heap)
        (VRef 10%positive)
      = Some (Ok "<object>.map(lambda)",
              alter (set_cached_repr "<object>.map(lambda)") 10%positive
                example_heap).
Proof.
  apply (repr_computed_once 1 example_heap 10%positive).
  - left. eexists _, _, _. vm_compute. reflexivity.
  - vm_compute. reflexivity.
Defined.

Lemma repr_keeps_draws_example :
  do_draw 2
    (alter (set_cached_repr "<object>.map(lambda)") 10%positive example_heap)
    (VRef 10%positive) (Replay [5] 0)
  = do_draw 2 example_heap (VRef 10%positive) (Replay [5] 0).
Proof.
  apply (repr_keeps_draws 2 example_heap (VRef 10%positive)
           (Ok "<object>.map(lambda)")).
  vm_compute. reflexivity.
Defined.

Lemma OneOfStrategy_do_draw_sound_example :
  ∃ s d1, s ∈ [VRef 1%positive; VRef 2%positive]
          ∧ do_draw 1 example_heap s d1 = Some (Ok (VInt 2), Replay [] 1).
Proof.
  apply (OneOfStrategy_do_draw_sound example_heap 11%positive
           [VRef 1%positive; VRef 2%positive] 1 (Replay [1] 0));
    vm_compute; reflexivity.
Defined.

Lemma unions_wide_kept_example :
  unions_wide (SearchStrategy.__or__ example_heap 11%positive (VRef 3%positive)).2.
Proof.
  assert (unions_wide example_heap) as Hwide.
  { intros l elts. unfold example_heap.
    repeat (rewrite lookup_insert; case_decide;
            [try done; intros [= <-]; simpl; lia|]).
    by rewrite lookup_empty. }
  destruct (unions_wide_kept example_heap 11%positive Hwide)
    as (_ & _ & Hor & _).
  apply (Hor (VRef 3%positive)
           (SearchStrategy.__or__ example_heap 11%positive (VRef 3%positive)).1).
  apply surjective_pairing.
Defined.

Lemma do_draw_index_monotone_example :
  index (Replay [5; 7; 2; 3] 0) ≤ index (Replay [3] 3).
Proof.
  apply (do_draw_index_monotone 4 example_heap (VRef 9%positive)
           (Replay [5; 7; 2; 3] 0) (Ok (VInt 2)) (Replay [3] 3)).
  - split.
    + intros d lower upper. simpl. unfold replay_integer_range.
      destruct (choices d); simpl; lia.
    + intros l name override d. unfold example_heap, just, digits.
      repeat (rewrite lookup_insert; case_decide;
              [try done; intros [= <- <-]; simpl; try lia;
               unfold replay_integer_range; destruct (choices d); simpl; lia|]).
      by rewrite lookup_empty.
  - vm_compute. reflexivity.
Defined.

Lemma one_of_strategies_flat_example :
  ∃ i, 0 ≤ i ≤ Z.of_nat (length [VRef 1%positive; VRef 2%positive; VRef 3%positive]) - 1
    ∧ (∀ fuel d d1,
         integer_range d 0
           (Z.of_nat (length [VRef 1%positive; VRef 2%positive; VRef 3%positive]) - 1)
         = (Ok i, d1) →
         do_draw (S fuel)
           (one_of_strategies example_heap
              [VRef 1%positive; VRef 2%positive; VRef 3%positive]).2
           (VRef 12%positive) d
         = do_draw fuel
             (one_of_strategies example_heap
                [VRef 1%positive; VRef 2%positive; VRef 3%positive]).2
             (VRef 2%positive) d1)
    ∧ (∀ j fuel d d1,
         0 ≤ j ≤ Z.of_nat (length [VRef 1%positive; VRef 2%positive; VRef 3%positive]) - 1 →
         j ≠ i →
         integer_range d 0
           (Z.of_nat (length [VRef 1%positive; VRef 2%positive; VRef 3%positive]) - 1)
         = (Ok j, d1) →
         ∃ s, s ∈ [VRef 1%positive; VRef 2%positive; VRef 3%positive]
              ∧ s ≠ VRef 2%positive
              ∧ do_draw (S fuel)
                  (one_of_strategies example_heap
                     [VRef 1%positive; VRef 2%positive; VRef 3%positive]).2
                  (VRef 12%positive) d
                = do_draw fuel
                    (one_of_strategies example_heap
                       [VRef 1%positive; VRef 2%positive; VRef 3%positive]).2
                    s d1).
Proof.
  apply (one_of_strategies_flat example_heap
           [VRef 1%positive; VRef 2%positive; VRef 3%positive] 12%positive
           (one_of_strategies example_heap
              [VRef 1%positive; VRef 2%positive; VRef 3%positive]).2
           (VRef 2%positive)).
  - vm_compute. reflexivity.
  - simpl. lia.
  - apply (bool_decide_unpack _). vm_compute. exact I.
  - apply (bool_decide_unpack _). vm_compute. exact I.
Defined.


Lemma filter_map_do_draw_sound_example :
  ∃ v x, equals 2 v = Ok x ∧ truthy x = true ∧ plus 10 v = Ok (VInt 12).
Proof.
  apply (filter_map_do_draw_sound example_heap 4%positive (equals 2) (plus 10)
           12%positive
           (SearchStrategy.filter example_heap 4%positive (equals 2)).2
           13%positive
           (SearchStrategy.map
              (SearchStrategy.filter example_heap 4%positive (equals 2)).2
              12%positive (Some (plus 10))).2
           4 (Replay [5; 2] 0) (VInt 12) (Replay [] 2));
    vm_compute; reflexivity.
Defined.

Lemma filter_filter_do_draw_sound_example :
  (∃ x, equals 2 (VInt 2) = Ok x ∧ truthy x = true)
  ∧ (∃ y, plus 0 (VInt 2) = Ok y ∧ truthy y = true).
Proof.
  apply (filter_filter_do_draw_sound example_heap 4%positive (equals 2) (plus 0)
           12%positive
           (SearchStrategy.filter example_heap 4%positive (equals 2)).2
           13%positive
           (SearchStrategy.filter
              (SearchStrategy.filter example_heap 4%positive (equals 2)).2
              12%positive (plus 0)).2
           4 (Replay [5; 2] 0) (VInt 2) (Replay [] 2));
    vm_compute; reflexivity.
Defined.

Lemma union_repr_hides_nesting_example :
  repr 3
    (SearchStrategy.__or__
       (SearchStrategy.__or__ example_heap 1%positive (VRef 2%positive)).2
       12%positive (VRef 3%positive)).2
    (VRef 13%positive)
  = Some (Ok "<object> | <object> | <object>",
          (SearchStrategy.__or__
             (SearchStrategy.__or__ example_heap 1%positive (VRef 2%positive)).2
             12%positive (VRef 3%positive)).2)
  ∧ repr 2
      (one_of_strategies example_heap
         [VRef 1%positive; VRef 2%positive; VRef 3%positive]).2
      (VRef 12%positive)
    = Some (Ok "<object> | <object> | <object>",
            (one_of_strategies example_heap
               [VRef 1%positive; VRef 2%positive; VRef 3%positive]).2).
Proof.
  change "<object> | <object> | <object>"
    with (builtin_repr (VRef 1%positive) +:+ " | "
          +:+ builtin_repr (VRef 2%positive) +:+ " | "
          +:+ builtin_repr (VRef 3%positive)).
  apply (union_repr_hides_nesting example_heap 1%positive 2%positive 3%positive
           "JustStrategy" (Some (λ data, (Ok (VInt 1), data)))
           "JustStrategy" (Some (λ data, (Ok (VInt 2), data)))
           "JustStrategy" (Some (λ data, (Ok (VInt 3), data)))
           12%positive 13%positive
           (SearchStrategy.__or__ example_heap 1%positive (VRef 2%positive)).2
           (SearchStrategy.__or__
              (SearchStrategy.__or__ example_heap 1%positive (VRef 2%positive)).2
              12%positive (VRef 3%positive)).2
           12%positive
           (one_of_strategies example_heap
              [VRef 1%positive; VRef 2%positive; VRef 3%positive]).2
           0);
    vm_compute; reflexivity.
Defined.
